(** * temp_interpolation: map-widget wrappers

    A shallow embedding of the two wrapper classes of the package:
    [temp_interpolation.temp_interpolation.Map] (over [ipyleaflet.Map]) and
    [temp_interpolation.foliummap.Map] (over [folium.Map]).

    The wrappers mutate one map object and may raise.  A method is therefore
    a function from the map to an outcome (normal return or raised
    exception) paired with the map as the call leaves it: what a method did
    before it raised stays done.

    The libraries themselves (ipyleaflet and its traits, geopandas,
    localtileserver, folium, the text methods of str) are not part of the
    package.  What they decide (whether a widget takes the values it is
    given, what a trait stores, what a file holds, what an expression
    evaluates to and does) is an interface the development is parametric
    in; a layer widget is identified with the call that built it. *)

From Stdlib Require Import String Ascii List ZArith QArith Bool Lia.
Import ListNotations.
Local Open Scope string_scope.
Local Open Scope list_scope.
Set Warnings "-register-all".

(** ** Python values and exceptions *)

Module Py.

(** The Python values that travel through the wrappers.  A float literal is
    kept as the decimal fraction written in the source; no arithmetic is
    ever done on it here. *)
Inductive value : Type :=
| VNone
| VBool (b : bool)
| VInt (z : Z)
| VFloat (q : Q)
| VStr (s : string)
| VList (l : list value)
| VTuple (l : list value)
| VDict (d : list (string * value))
| VObject (name : string).

(** Keyword arguments, in the order of the call. *)
Definition kwargs : Type := list (string * value).

Inductive exn : Type :=
| KeyError (key : value)
| UnboundLocalError (name : string)
| TypeError (keyword : string)
| IndexError
| OtherError (cls : string).

Inductive result (A : Type) : Type :=
| Ok (a : A)
| Raise (e : exn).
Arguments Ok {A} a.
Arguments Raise {A} e.

Definition rbind {A B} (r : result A) (k : A -> result B) : result B :=
  match r with
  | Ok a => k a
  | Raise e => Raise e
  end.

(** [x is None] *)
Definition is_None (v : value) : bool :=
  match v with VNone => true | _ => false end.

(** A parameter with a default: [None] stands for an omitted argument. *)
Definition default_arg (dflt : value) (arg : option value) : value :=
  match arg with Some v => v | None => dflt end.

(** *** Letter case

    A string is a sequence of 8-bit characters (text outside ASCII in its
    UTF-8 bytes).  [upper] and [lower] are the case maps of ASCII: the
    letters a-z and A-Z change case, every other character stays. *)

Definition upper_ascii (c : ascii) : ascii :=
  let n := nat_of_ascii c in
  if (97 <=? n)%nat && (n <=? 122)%nat then ascii_of_nat (n - 32) else c.

Definition lower_ascii (c : ascii) : ascii :=
  let n := nat_of_ascii c in
  if (65 <=? n)%nat && (n <=? 90)%nat then ascii_of_nat (n + 32) else c.

Fixpoint upper (s : string) : string :=
  match s with
  | EmptyString => EmptyString
  | String c r => String (upper_ascii c) (upper r)
  end.

Fixpoint lower (s : string) : string :=
  match s with
  | EmptyString => EmptyString
  | String c r => String (lower_ascii c) (lower r)
  end.

Fixpoint is_ascii (s : string) : bool :=
  match s with
  | EmptyString => true
  | String c r => (nat_of_ascii c <? 128)%nat && is_ascii r
  end.

(** [str.upper] and [str.lower].  Python maps every character of the text,
    ASCII or not, by the Unicode case tables; those tables are not written
    out here.  What is used of the two methods: on ASCII text they are
    [upper] and [lower], and two texts that differ in the case of ASCII
    letters only have the same [str.upper]. *)
Class Str : Type := {
  str_upper : string -> string;
  str_lower : string -> string;
  str_upper_ascii : forall s, is_ascii s = true -> str_upper s = upper s;
  str_lower_ascii : forall s, is_ascii s = true -> str_lower s = lower s;
  str_upper_case : forall s1 s2, lower s1 = lower s2 ->
                                 str_upper s1 = str_upper s2
}.

(** *** Lookups *)

(** First binding of a key in an association list. *)
Fixpoint assoc {A} (k : string) (l : list (string * A)) : option A :=
  match l with
  | [] => None
  | (k', v) :: r => if String.eqb k k' then Some v else assoc k r
  end.

(** [d[k]] on a dict with string keys. *)
Definition dict_getitem {A} (d : list (string * A)) (k : string) : result A :=
  match assoc k d with
  | Some v => Ok v
  | None => Raise (KeyError (VStr k))
  end.

(** [a[i]] on a sequence, for an index that is not negative. *)
Definition seq_getitem (a : list value) (i : nat) : result value :=
  match nth_error a i with
  | Some v => Ok v
  | None => Raise IndexError
  end.

(** Reading a local variable that may not have been assigned. *)
Definition local {A} (name : string) (slot : option A) : result A :=
  match slot with
  | Some v => Ok v
  | None => Raise (UnboundLocalError name)
  end.

(** *** Calls with [**kwargs]

    [f(k1=v1, ..., **kwargs)]: a key of [kwargs] that repeats one of the
    keywords written in the call is a TypeError (multiple values for the
    keyword argument), raised before [f] runs.  Otherwise [f] receives the
    written keywords followed by those of [kwargs]. *)
Definition has_key {A} (k : string) (l : list (string * A)) : bool :=
  existsb (fun kv => String.eqb k (fst kv)) l.

Fixpoint first_clash (explicit extra : kwargs) : option string :=
  match extra with
  | [] => None
  | (k, _) :: r => if has_key k explicit then Some k else first_clash explicit r
  end.

Definition call_kwargs (explicit extra : kwargs) : result kwargs :=
  match first_clash explicit extra with
  | Some k => Raise (TypeError k)
  | None => Ok (explicit ++ extra)
  end.

End Py.

(** ** ipyleaflet: widgets, the map and its own methods *)

Module ipyleaflet.
Import Py.

Inductive LayerClass : Type :=
| TileLayer | GeoJSON | ImageOverlay | VideoOverlay | WMSLayer.

(** A layer widget is the constructor call that made it: its class and the
    keywords it was built with.  [trait l k] is the value the call gave for
    [k]; a trait the call did not name is left at the widget's own default,
    and [trait] gives [None] for it. *)
Record Layer : Type := mkLayer {
  layer_class : LayerClass;
  layer_kwargs : kwargs
}.

Definition trait (l : Layer) (name : string) : option value :=
  assoc name (layer_kwargs l).

Inductive ControlClass : Type :=
| LayersControl | ZoomControl | AttributionControl.

Record Control : Type := mkControl {
  control_class : ControlClass;
  control_kwargs : kwargs
}.

(** A coroutine handed to the event loop.  [Map.fit_bounds(b)] only makes
    the coroutine [self._fit_bounds(b)] and schedules it; the coroutine
    moves center and zoom when the loop runs it, after the caller has
    returned. *)
Inductive Coroutine : Type :=
| _fit_bounds (bounds : value).

(** The state of an [ipyleaflet.Map] that the wrapper reads or writes, with
    the coroutines it has scheduled, oldest first. *)
Record Map : Type := mkMap {
  center : value;
  zoom : value;
  layout_height : value;
  scroll_wheel_zoom : value;
  layers : list Layer;
  controls : list Control;
  tasks : list Coroutine
}.

(** A method of the map: the outcome, and the map as the call leaves it. *)
Definition M (A : Type) : Type := Map -> result A * Map.

Definition ret {A} (a : A) : M A := fun m => (Ok a, m).

Definition bind {A B} (c : M A) (k : A -> M B) : M B :=
  fun m =>
    match c m with
    | (Ok a, m') => k a m'
    | (Raise e, m') => (Raise e, m')
    end.

Definition lift {A} (r : result A) : M A := fun m => (r, m).

(** [try: body / except: handler] with a bare [except]: every exception is
    caught, and the handler runs on the map as the body left it. *)
Definition try_except {A} (body handler : M A) : M A :=
  fun m =>
    match body m with
    | (Ok a, m') => (Ok a, m')
    | (Raise _, m') => handler m'
    end.

Declare Scope py_scope.
Delimit Scope py_scope with py.
Notation "x <- c ;; k" := (bind c (fun x => k))
  (at level 61, c at next level, right associativity) : py_scope.
Notation "c ;;; k" := (bind c (fun _ => k))
  (at level 61, right associativity) : py_scope.

(** What the traits of the library decide.  A widget constructor checks the
    keywords it is given against its traits and raises TraitError when one
    does not fit; an assignment to a trait of the map stores the value as
    the trait takes it (a tuple as a list, an int as a float ...) or raises
    TraitError. *)
Class Traitlets : Type := {
  validate_widget : LayerClass -> kwargs -> result unit;
  validate_attr : string -> value -> result value
}.

(** A widget constructor run on values that come from the caller. *)
Definition new_widget {V : Traitlets} (cls : LayerClass) (kw : kwargs)
  : result Layer :=
  rbind (validate_widget cls kw) (fun _ => Ok (mkLayer cls kw)).

(** [Map.add_layer]: the layer goes to the end of [layers].  (ipyleaflet
    refuses a layer object that is already on the map; every layer below is
    a newly built object.) *)
Definition with_layer (m : Map) (l : Layer) : Map :=
  mkMap (center m) (zoom m) (layout_height m) (scroll_wheel_zoom m)
        (layers m ++ [l]) (controls m) (tasks m).

Definition add_layer (l : Layer) : M unit :=
  fun m => (Ok tt, with_layer m l).

(** [Map.add_control] *)
Definition with_control (m : Map) (c : Control) : Map :=
  mkMap (center m) (zoom m) (layout_height m) (scroll_wheel_zoom m)
        (layers m) (controls m ++ [c]) (tasks m).

Definition add_control (c : Control) : M unit :=
  fun m => (Ok tt, with_control m c).

(** [Map.fit_bounds]: [asyncio.ensure_future(self._fit_bounds(bounds))]. *)
Definition with_task (m : Map) (t : Coroutine) : Map :=
  mkMap (center m) (zoom m) (layout_height m) (scroll_wheel_zoom m)
        (layers m) (controls m) (tasks m ++ [t]).

Definition fit_bounds (b : value) : M unit :=
  fun m => (Ok tt, with_task m (_fit_bounds b)).

(** Attribute assignments [self.center = v], [self.zoom = v], ... *)
Definition with_center (m : Map) (v : value) : Map :=
  mkMap v (zoom m) (layout_height m) (scroll_wheel_zoom m)
        (layers m) (controls m) (tasks m).

Definition with_zoom (m : Map) (v : value) : Map :=
  mkMap (center m) v (layout_height m) (scroll_wheel_zoom m)
        (layers m) (controls m) (tasks m).

Definition with_layout_height (m : Map) (v : value) : Map :=
  mkMap (center m) (zoom m) v (scroll_wheel_zoom m)
        (layers m) (controls m) (tasks m).

Definition with_scroll_wheel_zoom (m : Map) (v : value) : Map :=
  mkMap (center m) (zoom m) (layout_height m) v
        (layers m) (controls m) (tasks m).

Definition set_center {V : Traitlets} (v : value) : M unit :=
  fun m =>
    match validate_attr "center" v with
    | Ok stored => (Ok tt, with_center m stored)
    | Raise e => (Raise e, m)
    end.

Definition set_zoom {V : Traitlets} (v : value) : M unit :=
  fun m =>
    match validate_attr "zoom" v with
    | Ok stored => (Ok tt, with_zoom m stored)
    | Raise e => (Raise e, m)
    end.

(** [self.layout.height = v] *)
Definition set_layout_height {V : Traitlets} (v : value) : M unit :=
  fun m =>
    match validate_attr "layout.height" v with
    | Ok stored => (Ok tt, with_layout_height m stored)
    | Raise e => (Raise e, m)
    end.

(** [self.scroll_wheel_zoom = v]; the wrapper only ever assigns the constant
    True, which the Bool trait keeps as it is. *)
Definition set_scroll_wheel_zoom (v : value) : M unit :=
  fun m => (Ok tt, with_scroll_wheel_zoom m v).

(** The rest of an [__init__] after the base constructor has made the
    object: an exception leaves no object behind. *)
Definition initialise (body : M unit) (self : Map) : result Map :=
  match body self with
  | (Ok _, self') => Ok self'
  | (Raise e, _) => Raise e
  end.

(** What the wrapper takes from outside the package. *)

(** The base-class constructor [ipyleaflet.Map], called with keywords
    only. *)
Class MapWidget : Type := {
  Map_new : kwargs -> result Map
}.

(** [eval] of the expression text built from a basemap name, and the
    [build_url] method of what it evaluates to.  The text is evaluated
    with [self] in scope: besides giving a value or raising, it can do
    anything to the map. *)
Class Basemaps : Type := {
  TileProvider : Type;
  eval : string -> M TileProvider;
  build_url : TileProvider -> M string
}.

End ipyleaflet.

(** ** geopandas *)

Module gpd.
Import Py.

Class Geopandas : Type := {
  GeoDataFrame : Type;
  read_file : string -> result GeoDataFrame;
  (** [gdf.to_crs(epsg=n)] *)
  to_crs : GeoDataFrame -> Z -> result GeoDataFrame;
  (** [gdf.__geo_interface__] *)
  geo_interface : GeoDataFrame -> value;
  (** [gdf.total_bounds], the array [minx, miny, maxx, maxy] *)
  total_bounds : GeoDataFrame -> list value
}.

End gpd.

(** ** localtileserver *)

Module localtileserver.
Import Py.

Class TileServer : Type := {
  TileClient : Type;
  TileClient_new : value -> result TileClient;
  (** [get_leaflet_tile_layer(client, **kw)] *)
  get_leaflet_tile_layer : TileClient -> kwargs -> result ipyleaflet.Layer;
  (** [client.center()] *)
  client_center : TileClient -> result value;
  (** [client.default_zoom] *)
  default_zoom : TileClient -> result value
}.

End localtileserver.

(** ** temp_interpolation/temp_interpolation.py: class Map(ipyleaflet.Map) *)

Module temp_interpolation.
Import Py ipyleaflet gpd localtileserver.
Local Open Scope py_scope.

Section Methods.
Context {S : Str} {V : Traitlets} {W : MapWidget} {B : Basemaps}
        {G : Geopandas} {T : TileServer}.

Definition Map : Type := ipyleaflet.Map.

(** [Map(center=[19, 72], zoom=2, height="600px", **kwargs)] *)
Definition __init__ (center zoom height : option value) (kw : kwargs)
  : result Map :=
  let center := default_arg (VList [VInt 19; VInt 72]) center in
  let zoom := default_arg (VInt 2) zoom in
  let height := default_arg (VStr "600px") height in
  rbind (call_kwargs [("center", center); ("zoom", zoom)] kw) (fun args =>
  rbind (Map_new args) (fun self =>
  initialise
    (set_layout_height height ;;;
     set_scroll_wheel_zoom (VBool true))
    self)).

(** The expression text the f-string of [add_basemap] builds. *)
Definition basemap_expr (basemap : string) : string :=
  ("ipyleaflet.basemaps." ++ basemap)%string.

(** [TileLayer(url=url, name=basemap)]: a str for each of the two traits,
    which both take any str. *)
Definition add_basemap (basemap : option string) : M unit :=
  let basemap := match basemap with Some b => b | None => "OpenTopoMap" end in
  try_except
    (p <- eval (basemap_expr basemap) ;;
     url <- build_url p ;;
     let layer :=
       mkLayer TileLayer [("url", VStr url); ("name", VStr basemap)] in
     add_layer layer)
    (p <- eval (basemap_expr "OpenTopoMap") ;;
     url <- build_url p ;;
     let layer :=
       mkLayer TileLayer [("url", VStr url); ("name", VStr basemap)] in
     add_layer layer).

Definition map_types : list (string * string) :=
  [("ROADMAP", "m"); ("SATELLITE", "s"); ("HYBRID", "h"); ("TERRAIN", "t")].

Definition add_google_map (map_type : option string) : M unit :=
  let map_type := match map_type with Some t => t | None => "ROADMAP" end in
  map_type <- lift (dict_getitem map_types (str_upper map_type)) ;;
  let url :=
    ("https://mt1.google.com/vt/lyrs=" ++ str_lower map_type
       ++ "&x={x}&y={y}&z={z}")%string in
  let layer := mkLayer TileLayer [("url", VStr url); ("name", VStr "Google Map")] in
  add_layer layer.

(** The locals [gdf] and [data] of [add_vector] are assigned in the branches
    of the [isinstance] test only: each is a slot that may still be empty
    when it is read.  [GeoJSON] gets a dict for [data], and the style under
    a keyword that is no trait of the widget. *)
Definition add_vector (vector : value) (zoom_to_layer : option bool)
    (hover_style : option value) (kw : kwargs) : M unit :=
  let zoom_to_layer := match zoom_to_layer with Some z => z | None => true end in
  let hover_style := default_arg VNone hover_style in
  let hover_style :=
    if is_None hover_style
    then VDict [("color", VStr "yellow"); ("fillOpacity", VFloat 0.2)]
    else hover_style in
  slots <- match vector with
           | VStr path =>
               gdf <- lift (read_file path) ;;
               gdf <- lift (to_crs gdf 4326) ;;
               ret (Some gdf, Some (geo_interface gdf))
           | VDict _ => ret (None, Some vector)
           | _ => ret (None, None)
           end ;;
  let gdf := fst slots in
  let data := snd slots in
  data <- lift (local "data" data) ;;
  args <- lift (call_kwargs [("data", data); ("hover_sytle", hover_style)] kw) ;;
  let gjson := mkLayer GeoJSON args in
  add_layer gjson ;;;
  if zoom_to_layer then
    gdf <- lift (local "gdf" gdf) ;;
    let bounds := total_bounds gdf in
    b1 <- lift (seq_getitem bounds 1) ;;
    b0 <- lift (seq_getitem bounds 0) ;;
    b3 <- lift (seq_getitem bounds 3) ;;
    b2 <- lift (seq_getitem bounds 2) ;;
    fit_bounds (VList [VList [b1; b0]; VList [b3; b2]])
  else ret tt.

Definition add_layer_control : M unit :=
  add_control (mkControl LayersControl []).

Definition add_raster (url : value) (name colormap opacity : option value)
    (kw : kwargs) : M unit :=
  let name := default_arg VNone name in
  let colormap := default_arg VNone colormap in
  let opacity := default_arg VNone opacity in
  client <- lift (TileClient_new url) ;;
  args <- lift (call_kwargs
            [("name", name); ("colormap", colormap); ("opacity", opacity)] kw) ;;
  tile_layer <- lift (get_leaflet_tile_layer client args) ;;
  add_layer tile_layer ;;;
  c <- lift (client_center client) ;;
  set_center c ;;;
  z <- lift (default_zoom client) ;;
  set_zoom z.

Definition add_image (url bounds : value) (opacity : option value)
    (kw : kwargs) : M unit :=
  let opacity := default_arg (VInt 1) opacity in
  args <- lift (call_kwargs
            [("url", url); ("bounds", bounds); ("opacity", opacity)] kw) ;;
  layer <- lift (new_widget ImageOverlay args) ;;
  add_layer layer.

Definition add_video (url bounds : value) (opacity : option value)
    (kw : kwargs) : M unit :=
  let opacity := default_arg (VInt 1) opacity in
  args <- lift (call_kwargs
            [("url", url); ("bounds", bounds); ("opacity", opacity)] kw) ;;
  layer <- lift (new_widget VideoOverlay args) ;;
  add_layer layer.

Definition add_wms_layer (url layers_ : value)
    (name format transparent version : option value) (kw : kwargs) : M unit :=
  let name := default_arg VNone name in
  let format := default_arg (VStr "image/png") format in
  let transparent := default_arg (VBool true) transparent in
  let version := default_arg (VStr "1.1.1") version in
  args <- lift (call_kwargs
            [("url", url); ("layers", layers_); ("name", name);
             ("format", format); ("transparent", transparent);
             ("version", version)] kw) ;;
  layer <- lift (new_widget WMSLayer args) ;;
  add_layer layer.

End Methods.

End temp_interpolation.

(** ** temp_interpolation/foliummap.py: class Map(folium.Map) *)

Module folium.
Import Py.

(** What hangs under a folium map: [add_to]/[add_child] append here. *)
Inductive Element : Type :=
| TileLayer (kw : kwargs)
| LayerControl (kw : kwargs)
| OtherElement (cls : string) (kw : kwargs).

Record Map : Type := mkMap {
  options : kwargs;
  children : list Element
}.

(** [element.add_to(parent)] *)
Definition add_to (e : Element) (parent : Map) : Map :=
  mkMap (options parent) (children parent ++ [e]).

Definition is_LayerControl (e : Element) : bool :=
  match e with LayerControl _ => true | _ => false end.

(** The layer-visibility controls attached to a map. *)
Definition layer_controls (m : Map) : list Element :=
  filter is_LayerControl (children m).

(** The base-class constructor [folium.Map], called with keywords only. *)
Class MapWidget : Type := {
  Map_new : kwargs -> result Map
}.

End folium.

Module foliummap.
Import Py folium.

Section Methods.
Context {W : MapWidget}.

Definition Map : Type := folium.Map.

(** [Map(center=(0, 0), zoom=3, **kwargs)] *)
Definition __init__ (center zoom : option value) (kw : kwargs) : result Map :=
  let center := default_arg (VTuple [VInt 0; VInt 0]) center in
  let zoom := default_arg (VInt 3) zoom in
  rbind (call_kwargs [("location", center); ("zoom_start", zoom)] kw) (fun args =>
  rbind (Map_new args) (fun self =>
  let self := add_to (LayerControl []) self in
  Ok self)).

End Methods.

End foliummap.

(** ** Vocabulary of the properties *)

Module Spec.
Import Py ipyleaflet gpd localtileserver.

(** None of the keywords written in a call comes again in [**kwargs]. *)
Definition no_clash (written : list string) (kw : kwargs) : Prop :=
  forall k, In k written -> has_key k kw = false.

(** One call of a helper method of the ipyleaflet wrapper, with its
    arguments. *)
Inductive helper_call : Type :=
| Call_add_basemap (basemap : option string)
| Call_add_google_map (map_type : option string)
| Call_add_vector (vector : value) (zoom_to_layer : option bool)
    (hover_style : option value) (kw : kwargs)
| Call_add_layer_control
| Call_add_raster (url : value) (name colormap opacity : option value)
    (kw : kwargs)
| Call_add_image (url bounds : value) (opacity : option value) (kw : kwargs)
| Call_add_video (url bounds : value) (opacity : option value) (kw : kwargs)
| Call_add_wms_layer (url layers_ : value)
    (name format transparent version : option value) (kw : kwargs).

Definition run_helper {S : Str} {V : Traitlets} {B : Basemaps}
    {G : Geopandas} {T : TileServer} (c : helper_call) : M unit :=
  match c with
  | Call_add_basemap b => temp_interpolation.add_basemap b
  | Call_add_google_map t => temp_interpolation.add_google_map t
  | Call_add_vector v z h kw => temp_interpolation.add_vector v z h kw
  | Call_add_layer_control => temp_interpolation.add_layer_control
  | Call_add_raster u n c o kw => temp_interpolation.add_raster u n c o kw
  | Call_add_image u b o kw => temp_interpolation.add_image u b o kw
  | Call_add_video u b o kw => temp_interpolation.add_video u b o kw
  | Call_add_wms_layer u l n f t v kw =>
      temp_interpolation.add_wms_layer u l n f t v kw
  end.

(** The hover style [add_vector] settles on: the one given, or the yellow
    default when none (or None) is given. *)
Definition hover_style_used (hover_style : option value) : value :=
  match hover_style with
  | None | Some VNone =>
      VDict [("color", VStr "yellow"); ("fillOpacity", VFloat 0.2)]
  | Some h => h
  end.

(** The GeoJSON widget [add_vector] builds from its data. *)
Definition gjson_of (data : value) (hover_style : option value) (kw : kwargs)
  : Layer :=
  mkLayer GeoJSON
    ([("data", data); ("hover_sytle", hover_style_used hover_style)] ++ kw).

(** Resolving a basemap name to a url: the [eval] of its expression, then
    [build_url] on the result. *)
Definition resolve {B : Basemaps} (name : string) : M string :=
  bind (eval (temp_interpolation.basemap_expr name)) build_url.

(** The name an [add_basemap] call asks for. *)
Definition basemap_name (basemap : option string) : string :=
  match basemap with Some b => b | None => "OpenTopoMap" end.

(** A plain basemap name: resolving it, and resolving OpenTopoMap, only
    look the registry up and leave the map [m] as it is.  Calls of the
    other helpers evaluate nothing. *)
Definition plain_lookup {B : Basemaps} (c : helper_call) (m : Map) : Prop :=
  match c with
  | Call_add_basemap b =>
      snd (resolve (basemap_name b) m) = m /\
      snd (resolve "OpenTopoMap" m) = m
  | _ => True
  end.






End Spec.

(** ** Calls made one after another *)

Module Script.
Import Py ipyleaflet gpd localtileserver Spec.

(** A run of helper calls on one map, statement after statement: the first
    call that raises ends the run. *)
Fixpoint run_script {S : Str} {V : Traitlets} {B : Basemaps}
    {G : Geopandas} {T : TileServer} (cs : list helper_call) : M unit :=
  match cs with
  | [] => ret tt
  | c :: rest => bind (run_helper c) (fun _ => run_script rest)
  end.

(** The helpers in which attaching is the last statement: nothing follows
    [add_layer] / [add_control] that could still raise. *)
Definition attaches_last (c : helper_call) : bool :=
  match c with
  | Call_add_vector _ _ _ _ => false
  | Call_add_raster _ _ _ _ _ => false
  | _ => true
  end.

End Script.

(** ** A sample outside world

    One concrete environment, on which the general statements are run. *)

Module Sample.
Import Py.

(** Text that is ASCII throughout: the case maps are those of ASCII. *)
#[local] Instance ascii_text : Str.
Proof.
  refine {| str_upper := upper; str_lower := lower |}.
  - intros s _. reflexivity.
  - intros s _. reflexivity.
  - intros s1 s2 Hlow.
    assert (Hul : forall s, upper (lower s) = upper s).
    { induction s as [|c r IH]; simpl; [reflexivity|].
      rewrite IH. f_equal.
      destruct c as [[] [] [] [] [] [] [] []]; reflexivity. }
    rewrite <- (Hul s1), Hlow. apply Hul.
Defined.

(** Whether a trait of that name takes the value. *)
Definition fits (k : string) (v : value) : bool :=
  if (String.eqb k "url" || String.eqb k "name" || String.eqb k "layers"
      || String.eqb k "format" || String.eqb k "version"
      || String.eqb k "attribution")%bool
  then match v with VStr _ => true | _ => false end
  else if String.eqb k "bounds"
  then match v with VList _ | VTuple _ => true | _ => false end
  else if String.eqb k "opacity"
  then match v with VInt _ | VFloat _ => true | _ => false end
  else if String.eqb k "transparent"
  then match v with VBool _ => true | _ => false end
  else true.

#[local] Instance traits : ipyleaflet.Traitlets := {|
  ipyleaflet.validate_widget := fun _ kw =>
    if forallb (fun kv => fits (fst kv) (snd kv)) kw
    then Ok tt
    else Raise (OtherError "TraitError");
  ipyleaflet.validate_attr := fun name v =>
    if String.eqb name "center"
    then match v with
         | VList [_; _] => Ok v
         | VTuple [a; b] => Ok (VList [a; b])
         | _ => Raise (OtherError "TraitError")
         end
    else if String.eqb name "zoom"
    then match v with
         | VInt z => Ok (VFloat (inject_Z z))
         | VFloat _ => Ok v
         | _ => Raise (OtherError "TraitError")
         end
    else if String.eqb name "layout.height"
    then match v with
         | VStr _ | VNone => Ok v
         | _ => Raise (OtherError "TraitError")
         end
    else Ok v
|}.

Definition topo_url : string :=
  "https://{s}.tile.opentopomap.org/{z}/{x}/{y}.png".

(** A registry that is only looked up: evaluating a name leaves the map
    alone. *)
#[local] Instance basemaps : ipyleaflet.Basemaps := {|
  ipyleaflet.TileProvider := string;
  ipyleaflet.eval := fun e m =>
    (if String.eqb e "ipyleaflet.basemaps.OpenTopoMap" then Ok topo_url
     else Raise (OtherError "AttributeError"), m);
  ipyleaflet.build_url := fun p m => (Ok p, m)
|}.

(** A geo-data frame: its reference system, its features, its bounds. *)
Record frame : Type := mkFrame {
  crs : Z;
  features : value;
  extent : list value
}.

Definition parcels : frame :=
  mkFrame 4326
    (VDict [("type", VStr "FeatureCollection"); ("features", VList [])])
    [VFloat 72.5; VFloat 18.75; VFloat 73.25; VFloat 19.5].

#[local] Instance geopandas : gpd.Geopandas := {|
  gpd.GeoDataFrame := frame;
  gpd.read_file := fun path =>
    if String.eqb path "parcels.geojson" then Ok parcels
    else Raise (OtherError "DriverError");
  gpd.to_crs := fun g epsg => Ok (mkFrame epsg (features g) (extent g));
  gpd.geo_interface := features;
  gpd.total_bounds := extent
|}.

(** A tile server whose tile layer, like any tile layer, wants a str for
    its name. *)
#[local] Instance tileserver : localtileserver.TileServer := {|
  localtileserver.TileClient := value;
  localtileserver.TileClient_new := fun url => Ok url;
  localtileserver.get_leaflet_tile_layer := fun client kw =>
    match assoc "name" kw with
    | Some (VStr _) =>
        Ok (ipyleaflet.mkLayer ipyleaflet.TileLayer (("url", client) :: kw))
    | _ => Raise (OtherError "TraitError")
    end;
  localtileserver.client_center := fun _ =>
    Ok (VTuple [VFloat 27.5; VFloat 86.75]);
  localtileserver.default_zoom := fun _ => Ok (VInt 9)
|}.

Definition map0 : ipyleaflet.Map :=
  ipyleaflet.mkMap (VList [VInt 19; VInt 72]) (VInt 2) (VStr "600px")
    (VBool true) [] [] [].

Definition collection : list (string * value) :=
  [("type", VStr "FeatureCollection"); ("features", VList [])].



#[local] Instance folium_widget : folium.MapWidget := {|
  folium.Map_new := fun kw =>
    Ok (folium.mkMap kw [folium.TileLayer [("tiles", VStr "OpenStreetMap")]])
|}.

End Sample.

(** ** A second outside world, with things that fail *)

Module World.
Import Py.

(** A registry with one provider, one group of providers (which has no
    [build_url]) and nothing else; it is only looked up. *)
Definition basemaps : ipyleaflet.Basemaps := {|
  ipyleaflet.TileProvider := option string;
  ipyleaflet.eval := fun e m =>
    (if String.eqb e "ipyleaflet.basemaps.OpenTopoMap"
     then Ok (Some Sample.topo_url)
     else if String.eqb e "ipyleaflet.basemaps.CartoDB.Positron"
     then Ok (Some "https://{s}.basemaps.cartocdn.com/light_all/{z}/{x}/{y}.png")
     else if String.eqb e "ipyleaflet.basemaps.CartoDB"
     then Ok None
     else Raise (OtherError "AttributeError"), m);
  ipyleaflet.build_url := fun p m =>
    (match p with
     | Some u => Ok u
     | None => Raise (OtherError "AttributeError")
     end, m)
|}.

(** The same registry, asked with a name that is a whole expression: the
    conditional [OpenTopoMap if self.add_layer_control() is None else None]
    first attaches a layer control to the map and then gives the
    provider. *)
Definition scripted_basemaps : ipyleaflet.Basemaps := {|
  ipyleaflet.TileProvider := option string;
  ipyleaflet.eval := fun e m =>
    if String.eqb e
         "ipyleaflet.basemaps.OpenTopoMap if self.add_layer_control() is None else None"
    then (Ok (Some Sample.topo_url),
          ipyleaflet.with_control m
            (ipyleaflet.mkControl ipyleaflet.LayersControl []))
    else if String.eqb e "ipyleaflet.basemaps.OpenTopoMap"
    then (Ok (Some Sample.topo_url), m)
    else (Raise (OtherError "AttributeError"), m);
  ipyleaflet.build_url := fun p m =>
    (match p with
     | Some u => Ok u
     | None => Raise (OtherError "AttributeError")
     end, m)
|}.

(** A registry that has lost OpenTopoMap. *)
Definition no_basemaps : ipyleaflet.Basemaps := {|
  ipyleaflet.TileProvider := string;
  ipyleaflet.eval := fun e m =>
    (if String.eqb e "ipyleaflet.basemaps.Open Topo Map"
     then Raise (OtherError "SyntaxError")
     else Raise (OtherError "AttributeError"), m);
  ipyleaflet.build_url := fun p m => (Ok p, m)
|}.

(** A tile server: one raster is missing, one reports no center, one no
    default zoom; the tile layer wants a str for its name. *)
Definition tileserver : localtileserver.TileServer := {|
  localtileserver.TileClient := string;
  localtileserver.TileClient_new := fun url =>
    match url with
    | VStr path =>
        if String.eqb path "missing.tif"
        then Raise (OtherError "FileNotFoundError")
        else Ok path
    | _ => Raise (OtherError "ValueError")
    end;
  localtileserver.get_leaflet_tile_layer := fun client kw =>
    match assoc "name" kw with
    | Some (VStr _) =>
        Ok (ipyleaflet.mkLayer ipyleaflet.TileLayer
              (("url", VStr client) :: kw))
    | _ => Raise (OtherError "TraitError")
    end;
  localtileserver.client_center := fun client =>
    if String.eqb client "nocenter.tif"
    then Raise (OtherError "ValueError")
    else Ok (VTuple [VFloat 27.5; VFloat 86.75]);
  localtileserver.default_zoom := fun client =>
    if String.eqb client "nozoom.tif"
    then Raise (OtherError "ValueError")
    else Ok (VInt 9)
|}.

(** An [ipyleaflet.Map] constructor: it takes center, zoom and
    scroll_wheel_zoom from its keywords, keeps a zoom as a float and
    refuses one that is no number. *)
Definition leaflet_widget : ipyleaflet.MapWidget := {|
  ipyleaflet.Map_new := fun kw =>
    match
      match assoc "zoom" kw with
      | Some (VInt z) => Ok (VFloat (inject_Z z))
      | Some (VFloat q) => Ok (VFloat q)
      | None => Ok (VFloat 12)
      | Some _ => Raise (OtherError "TraitError")
      end
    with
    | Ok z =>
        Ok (ipyleaflet.mkMap
              (match assoc "center" kw with
               | Some c => c
               | None => VList [VFloat 0; VFloat 0]
               end)
              z
              (VStr "400px")
              (match assoc "scroll_wheel_zoom" kw with
               | Some b => b
               | None => VBool false
               end)
              [ipyleaflet.mkLayer ipyleaflet.TileLayer
                 [("name", VStr "OpenStreetMap.Mapnik")]]
              [ipyleaflet.mkControl ipyleaflet.ZoomControl [];
               ipyleaflet.mkControl ipyleaflet.AttributionControl []]
              [])
    | Raise e => Raise e
    end
|}.

(** A [folium.Map] constructor that refuses a location that is not a pair. *)
Definition folium_widget : folium.MapWidget := {|
  folium.Map_new := fun kw =>
    match assoc "location" kw with
    | Some (VTuple [_; _]) | Some (VList [_; _]) =>
        Ok (folium.mkMap kw
              [folium.TileLayer [("tiles", VStr "OpenStreetMap")]])
    | _ => Raise (OtherError "ValueError")
    end
|}.

End World.

(** * Properties *)

Import Py ipyleaflet gpd localtileserver Spec Script.

(** ** Keyword arguments *)

Lemma has_key_In {A} (k : string) (l : list (string * A)) :
  has_key k l = true <-> In k (map fst l).
Proof.
  unfold has_key. rewrite existsb_exists. split.
  - intros [[k' v] [Hin Heq]]. simpl in Heq.
    apply String.eqb_eq in Heq. subst k'.
    change k with (fst (k, v)). now apply in_map.
  - intros Hin. apply in_map_iff in Hin. destruct Hin as [[k' v] [Hk Hin]].
    simpl in Hk. subst k'. exists (k, v). split; [assumption|].
    simpl. apply String.eqb_refl.
Qed.

Lemma first_clash_none (explicit extra : kwargs) :
  no_clash (map fst explicit) extra -> first_clash explicit extra = None.
Proof.
  induction extra as [|[k v] r IH]; intros Hno; simpl; [reflexivity|].
  destruct (has_key k explicit) eqn:Hk.
  - apply has_key_In in Hk. specialize (Hno k Hk).
    simpl in Hno. rewrite String.eqb_refl in Hno. discriminate.
  - apply IH. intros k' Hin. specialize (Hno k' Hin).
    simpl in Hno. apply orb_false_elim in Hno. tauto.
Qed.

Lemma call_kwargs_no_clash (explicit extra : kwargs) :
  no_clash (map fst explicit) extra ->
  call_kwargs explicit extra = Ok (explicit ++ extra).
Proof.
  intros Hno. unfold call_kwargs. now rewrite first_clash_none.
Qed.

Lemma no_clash_nil (written : list string) : no_clash written [].
Proof. intros k _. reflexivity. Qed.

Lemma first_clash_some (explicit extra : kwargs) (k : string) :
  In k (map fst explicit) -> has_key k extra = true ->
  exists k', first_clash explicit extra = Some k' /\
             In k' (map fst explicit) /\ has_key k' extra = true.
Proof.
  intros Hin.
  induction extra as [|[k1 v] r IH]; simpl; intros Hk; [discriminate|].
  destruct (has_key k1 explicit) eqn:H1.
  - exists k1. split; [reflexivity|]. split.
    + now apply has_key_In.
    + now rewrite String.eqb_refl.
  - destruct (String.eqb_spec k k1) as [->|Hne].
    + apply has_key_In in Hin. congruence.
    + simpl in Hk. destruct (IH Hk) as (k' & Hf & Hi & Hh).
      exists k'. split; [assumption|]. split; [assumption|].
      change (has_key k' ((k1, v) :: r))
        with (String.eqb k' k1 || has_key k' r).
      rewrite Hh. apply orb_true_r.
Qed.

Lemma call_kwargs_clash (explicit extra : kwargs) (k : string) :
  In k (map fst explicit) -> has_key k extra = true ->
  exists k', call_kwargs explicit extra = Raise (TypeError k') /\
             In k' (map fst explicit).
Proof.
  intros Hin Hk.
  destruct (first_clash_some explicit extra k Hin Hk) as (k' & Hf & Hi & _).
  exists k'. unfold call_kwargs. rewrite Hf. now split.
Qed.

Lemma call_kwargs_ok_inv (explicit extra args : kwargs) :
  call_kwargs explicit extra = Ok args -> args = explicit ++ extra.
Proof.
  unfold call_kwargs. destruct (first_clash explicit extra); [discriminate|].
  now intros [= <-].
Qed.

Lemma assoc_has_key_false {A} (k : string) (l : list (string * A)) :
  has_key k l = false -> assoc k l = None.
Proof.
  induction l as [|[k1 v] r IH]; simpl; intros Hk; [reflexivity|].
  apply orb_false_elim in Hk. destruct Hk as [Hk Hr].
  rewrite Hk. now apply IH.
Qed.

(** ** The constructor of the ipyleaflet wrapper *)

Lemma init_run (V : Traitlets) (W : ipyleaflet.MapWidget)
    (center zoom height : option value) (kw : kwargs) (base : Map) :
  no_clash ["center"; "zoom"] kw ->
  ipyleaflet.Map_new
    ([("center", default_arg (VList [VInt 19; VInt 72]) center);
      ("zoom", default_arg (VInt 2) zoom)] ++ kw) = Ok base ->
  temp_interpolation.__init__ center zoom height kw =
    match validate_attr "layout.height"
            (default_arg (VStr "600px") height) with
    | Ok stored =>
        Ok (with_scroll_wheel_zoom (with_layout_height base stored)
              (VBool true))
    | Raise e => Raise e
    end.
Proof.
  intros Hno Hnew. unfold temp_interpolation.__init__.
  rewrite (call_kwargs_no_clash
             [("center", default_arg (VList [VInt 19; VInt 72]) center);
              ("zoom", default_arg (VInt 2) zoom)] kw Hno).
  cbv beta iota delta [rbind]. rewrite Hnew.
  cbv beta iota delta
    [initialise bind set_layout_height set_scroll_wheel_zoom].
  now destruct (validate_attr "layout.height" _).
Qed.

(** X1.  When the base constructor builds the map and the layout takes the
    height, the wrapper returns the map with scroll-wheel zoom on (whatever
    the base or the extra keywords had set) and with the height, as the
    layout stores it, on its layout (that of 600px when none is given);
    center, zoom, layers and controls are the base constructor's. *)
Theorem init_forces_scroll_wheel_zoom :
  forall (V : Traitlets) (W : ipyleaflet.MapWidget)
         (center zoom height : option value) (kw : kwargs)
         (base : Map) (stored : value),
    no_clash ["center"; "zoom"] kw ->
    ipyleaflet.Map_new
      ([("center", match center with Some c => c
                   | None => VList [VInt 19; VInt 72] end);
        ("zoom", match zoom with Some z => z | None => VInt 2 end)] ++ kw)
      = Ok base ->
    validate_attr "layout.height"
      (match height with Some h => h | None => VStr "600px" end)
      = Ok stored ->
    exists self : Map,
      temp_interpolation.__init__ center zoom height kw = Ok self /\
      scroll_wheel_zoom self = VBool true /\
      layout_height self = stored /\
      ipyleaflet.center self = ipyleaflet.center base /\
      ipyleaflet.zoom self = ipyleaflet.zoom base /\
      layers self = layers base /\
      controls self = controls base /\
      tasks self = tasks base.
Proof.
  intros V W center zoom height kw base stored Hno Hnew Hheight.
  eexists. split.
  - rewrite (init_run V W center zoom height kw base Hno)
      by (destruct center, zoom; exact Hnew).
    replace (validate_attr "layout.height" _) with (Ok stored)
      by (rewrite <- Hheight; destruct height; reflexivity).
    reflexivity.
  - repeat split.
Qed.

Lemma init_forces_scroll_wheel_zoom_witness :
  exists self : Map,
    temp_interpolation.__init__ (V := Sample.traits)
        (W := World.leaflet_widget)
        None (Some (VInt 5)) None [("scroll_wheel_zoom", VBool false)]
      = Ok self /\
    scroll_wheel_zoom self = VBool true /\
    layout_height self = VStr "600px" /\
    ipyleaflet.center self = VList [VInt 19; VInt 72] /\
    ipyleaflet.zoom self = VFloat 5 /\
    layers self =
      [mkLayer TileLayer [("name", VStr "OpenStreetMap.Mapnik")]] /\
    controls self =
      [mkControl ZoomControl []; mkControl AttributionControl []] /\
    tasks self = [].
Proof.
  apply (init_forces_scroll_wheel_zoom Sample.traits World.leaflet_widget
           None (Some (VInt 5)) None [("scroll_wheel_zoom", VBool false)]
           (mkMap (VList [VInt 19; VInt 72]) (VFloat 5) (VStr "400px")
              (VBool false)
              [mkLayer TileLayer [("name", VStr "OpenStreetMap.Mapnik")]]
              [mkControl ZoomControl []; mkControl AttributionControl []]
              [])
           (VStr "600px")).
  - intros k Hk. simpl in Hk. destruct Hk as [<- | [<- | []]]; reflexivity.
  - reflexivity.
  - reflexivity.
Defined.

(** X2.  An exception of the base constructor leaves the wrapper's
    constructor by the same name: no map is returned. *)
Theorem init_base_failure_propagates :
  forall (V : Traitlets) (W : ipyleaflet.MapWidget)
         (center zoom height : option value) (kw : kwargs) (e : exn),
    no_clash ["center"; "zoom"] kw ->
    ipyleaflet.Map_new
      ([("center", match center with Some c => c
                   | None => VList [VInt 19; VInt 72] end);
        ("zoom", match zoom with Some z => z | None => VInt 2 end)] ++ kw)
      = Raise e ->
    temp_interpolation.__init__ center zoom height kw = Raise e.
Proof.
  intros V W center zoom height kw e Hno Hnew.
  unfold temp_interpolation.__init__.
  rewrite (call_kwargs_no_clash
             [("center", default_arg (VList [VInt 19; VInt 72]) center);
              ("zoom", default_arg (VInt 2) zoom)] kw Hno).
  cbv beta iota delta [rbind].
  destruct center, zoom; cbv beta iota delta [default_arg];
    now rewrite Hnew.
Qed.

Lemma init_base_failure_propagates_witness :
  temp_interpolation.__init__ (V := Sample.traits)
      (W := World.leaflet_widget)
      None (Some (VStr "far")) None [] = Raise (OtherError "TraitError").
Proof.
  apply (init_base_failure_propagates Sample.traits World.leaflet_widget
           None (Some (VStr "far")) None [] (OtherError "TraitError")).
  - intros k _. reflexivity.
  - reflexivity.
Defined.

(** X22.  A height the layout does not take (a number, say) makes the
    constructor raise the layout's exception although the base constructor
    had built the map: no map is returned. *)
Theorem init_height_refused :
  forall (V : Traitlets) (W : ipyleaflet.MapWidget)
         (center zoom height : option value) (kw : kwargs)
         (base : Map) (e : exn),
    no_clash ["center"; "zoom"] kw ->
    ipyleaflet.Map_new
      ([("center", match center with Some c => c
                   | None => VList [VInt 19; VInt 72] end);
        ("zoom", match zoom with Some z => z | None => VInt 2 end)] ++ kw)
      = Ok base ->
    validate_attr "layout.height"
      (match height with Some h => h | None => VStr "600px" end)
      = Raise e ->
    temp_interpolation.__init__ center zoom height kw = Raise e.
Proof.
  intros V W center zoom height kw base e Hno Hnew Hheight.
  rewrite (init_run V W center zoom height kw base Hno)
    by (destruct center, zoom; exact Hnew).
  replace (validate_attr "layout.height" _) with (@Raise value e)
    by (rewrite <- Hheight; destruct height; reflexivity).
  reflexivity.
Qed.

Lemma init_height_refused_witness :
  temp_interpolation.__init__ (V := Sample.traits)
      (W := World.leaflet_widget)
      None None (Some (VInt 600)) [] = Raise (OtherError "TraitError").
Proof.
  apply (init_height_refused Sample.traits World.leaflet_widget
           None None (Some (VInt 600)) []
           (mkMap (VList [VInt 19; VInt 72]) (VFloat 2) (VStr "400px")
              (VBool false)
              [mkLayer TileLayer [("name", VStr "OpenStreetMap.Mapnik")]]
              [mkControl ZoomControl []; mkControl AttributionControl []]
              [])
           (OtherError "TraitError")).
  - intros k _. reflexivity.
  - reflexivity.
  - reflexivity.
Defined.

(** ** add_google_map *)

Lemma map_types_miss (k : string) :
  ~ In k ["ROADMAP"; "SATELLITE"; "HYBRID"; "TERRAIN"] ->
  assoc k temp_interpolation.map_types = None.
Proof.
  intros Hk. unfold temp_interpolation.map_types. simpl.
  repeat match goal with
         | |- context [String.eqb k ?t] =>
             destruct (String.eqb_spec k t) as [->|_];
             [exfalso; apply Hk; simpl; tauto|]
         end.
  reflexivity.
Qed.

(** Letter case does not matter to [upper]: two strings that agree once
    lower-cased agree once upper-cased. *)
Lemma upper_lower_ascii (c : ascii) :
  upper_ascii (lower_ascii c) = upper_ascii c.
Proof. destruct c as [[] [] [] [] [] [] [] []]; reflexivity. Qed.

Lemma upper_lower (s : string) : upper (lower s) = upper s.
Proof.
  induction s as [|c r IH]; simpl; [reflexivity|].
  now rewrite upper_lower_ascii, IH.
Qed.

(** Every spelling of an upper-case ASCII token that differs from it in
    letter case only upper-cases to the token. *)
Lemma upper_of_case_variant (S : Str) (s token : string) :
  lower s = lower token -> is_ascii token = true -> upper token = token ->
  str_upper s = token.
Proof.
  intros Hlow Hascii Hup.
  rewrite (str_upper_case s token Hlow), (str_upper_ascii token Hascii).
  exact Hup.
Qed.

Example upper_mixed_case :
  str_upper (Str := Sample.ascii_text) "sAtElLiTe" = "SATELLITE".
Proof. reflexivity. Qed.

(** C4.  A map-type token that upper-cases to ROADMAP, SATELLITE, HYBRID or
    TERRAIN makes [add_google_map] return normally; the layers of the map
    are then the old ones followed by one tile layer, named "Google Map",
    whose url is the Google template with the code m, s, h or t
    respectively in the place of the type; nothing else of the map has
    changed. *)
Theorem add_google_map_valid_token :
  forall (S : Str) (m : Map) (s token code : string),
    In (token, code)
       [("ROADMAP", "m"); ("SATELLITE", "s"); ("HYBRID", "h"); ("TERRAIN", "t")] ->
    str_upper s = token ->
    exists m' : Map,
      temp_interpolation.add_google_map (Some s) m = (Ok tt, m') /\
      layers m' =
        layers m ++
        [mkLayer TileLayer
           [("url", VStr ("https://mt1.google.com/vt/lyrs=" ++ code
                           ++ "&x={x}&y={y}&z={z}")%string);
            ("name", VStr "Google Map")]] /\
      controls m' = controls m /\
      center m' = center m /\ zoom m' = zoom m /\ tasks m' = tasks m.
Proof.
  intros S m s token code Hin Hup.
  cbv [temp_interpolation.add_google_map bind lift add_layer]. rewrite Hup.
  simpl in Hin.
  repeat (destruct Hin as [Heq | Hin];
          [injection Heq as <- <-; simpl;
           rewrite str_lower_ascii by reflexivity;
           eexists; split; [reflexivity|]; repeat split|]).
  contradiction.
Qed.

Lemma add_google_map_valid_token_witness :
  exists m' : Map,
    temp_interpolation.add_google_map (S := Sample.ascii_text)
        (Some "Satellite") Sample.map0 = (Ok tt, m') /\
    layers m' =
      layers Sample.map0 ++
      [mkLayer TileLayer
         [("url", VStr "https://mt1.google.com/vt/lyrs=s&x={x}&y={y}&z={z}");
          ("name", VStr "Google Map")]] /\
    controls m' = controls Sample.map0 /\
    center m' = center Sample.map0 /\ zoom m' = zoom Sample.map0 /\
    tasks m' = tasks Sample.map0.
Proof.
  apply (add_google_map_valid_token Sample.ascii_text Sample.map0
           "Satellite" "SATELLITE" "s").
  - right. left. reflexivity.
  - reflexivity.
Defined.

(** C5.  A map-type token whose upper-cased form ([str.upper], on
    whatever text) is none of the four keys makes [add_google_map] raise
    KeyError on that upper-cased form, and the map is left as it was: no
    layer is attached. *)
Theorem add_google_map_unknown_token :
  forall (S : Str) (m : Map) (s : string),
    ~ In (str_upper s) ["ROADMAP"; "SATELLITE"; "HYBRID"; "TERRAIN"] ->
    temp_interpolation.add_google_map (Some s) m =
      (Raise (KeyError (VStr (str_upper s))), m).
Proof.
  intros S m s Hk.
  cbv [temp_interpolation.add_google_map bind lift dict_getitem].
  now rewrite (map_types_miss _ Hk).
Qed.

Lemma add_google_map_unknown_token_witness :
  temp_interpolation.add_google_map (S := Sample.ascii_text)
      (Some "bogus") Sample.map0 =
    (Raise (KeyError (VStr "BOGUS")), Sample.map0).
Proof.
  apply (add_google_map_unknown_token Sample.ascii_text Sample.map0 "bogus").
  simpl. intros [H | [H | [H | [H | H]]]];
    first [discriminate H | exact H].
Defined.



(** ** add_basemap *)

(** The whole of [add_basemap]: the name is resolved; when that raises,
    OpenTopoMap is resolved on the map as the first attempt left it; the
    layer gets the url that was found and the name that was asked for. *)
Lemma add_basemap_run (B : Basemaps) (basemap : option string) (m : Map) :
  temp_interpolation.add_basemap basemap m =
    match resolve (basemap_name basemap) m with
    | (Ok url, m1) =>
        (Ok tt,
         with_layer m1
           (mkLayer TileLayer
              [("url", VStr url); ("name", VStr (basemap_name basemap))]))
    | (Raise _, m1) =>
        match resolve "OpenTopoMap" m1 with
        | (Ok url, m2) =>
            (Ok tt,
             with_layer m2
               (mkLayer TileLayer
                  [("url", VStr url);
                   ("name", VStr (basemap_name basemap))]))
        | (Raise e, m2) => (Raise e, m2)
        end
    end.
Proof.
  cbv beta iota zeta delta
    [temp_interpolation.add_basemap resolve try_except bind add_layer].
  fold (basemap_name basemap).
  destruct (eval (temp_interpolation.basemap_expr (basemap_name basemap)) m)
    as [[p|e] m1].
  - destruct (build_url p m1) as [[u|e] m1']; [reflexivity|].
    destruct (eval (temp_interpolation.basemap_expr "OpenTopoMap") m1')
      as [[p0|e0] m2]; [|reflexivity].
    now destruct (build_url p0 m2) as [[u0|e0] m2'].
  - destruct (eval (temp_interpolation.basemap_expr "OpenTopoMap") m1)
      as [[p0|e0] m2]; [|reflexivity].
    now destruct (build_url p0 m2) as [[u0|e0] m2'].
Qed.

(** C6.  When resolving the basemap name raises (the [eval] of the name, or
    [build_url] on what it gave) and OpenTopoMap then resolves,
    [add_basemap] returns normally; the layers are then those of the map as
    the two resolutions left it (for a plain name: the map as it was),
    followed by one tile layer that carries the url of OpenTopoMap and the
    name that was asked for. *)
Theorem add_basemap_fallback :
  forall (B : Basemaps) (m m1 m2 : Map) (name : string) (e : exn)
         (u0 : string),
    resolve name m = (Raise e, m1) ->
    resolve "OpenTopoMap" m1 = (Ok u0, m2) ->
    exists m' : Map,
      temp_interpolation.add_basemap (Some name) m = (Ok tt, m') /\
      layers m' =
        layers m2 ++
        [mkLayer TileLayer [("url", VStr u0); ("name", VStr name)]] /\
      controls m' = controls m2 /\
      center m' = center m2 /\ zoom m' = zoom m2 /\ tasks m' = tasks m2.
Proof.
  intros B m m1 m2 name e u0 Hname Hdflt.
  eexists. split.
  - rewrite add_basemap_run. simpl basemap_name. rewrite Hname, Hdflt.
    reflexivity.
  - repeat split.
Qed.

Lemma add_basemap_fallback_witness :
  exists m' : Map,
    temp_interpolation.add_basemap (B := Sample.basemaps)
        (Some "NonexistentName") Sample.map0 = (Ok tt, m') /\
    layers m' =
      layers Sample.map0 ++
      [mkLayer TileLayer
         [("url", VStr Sample.topo_url); ("name", VStr "NonexistentName")]] /\
    controls m' = controls Sample.map0 /\
    center m' = center Sample.map0 /\ zoom m' = zoom Sample.map0 /\
    tasks m' = tasks Sample.map0.
Proof.
  apply (add_basemap_fallback Sample.basemaps Sample.map0 Sample.map0
           Sample.map0 "NonexistentName" (OtherError "AttributeError")
           Sample.topo_url); reflexivity.
Defined.

(** X3.  A basemap name that resolves gives, after whatever its evaluation
    did to the map, one more tile layer with its own url and that name;
    the fallback is not consulted. *)
Theorem add_basemap_resolved :
  forall (B : Basemaps) (m m1 : Map) (name u : string),
    resolve name m = (Ok u, m1) ->
    exists m' : Map,
      temp_interpolation.add_basemap (Some name) m = (Ok tt, m') /\
      layers m' =
        layers m1 ++
        [mkLayer TileLayer [("url", VStr u); ("name", VStr name)]] /\
      controls m' = controls m1 /\
      center m' = center m1 /\ zoom m' = zoom m1 /\ tasks m' = tasks m1.
Proof.
  intros B m m1 name u Hname.
  eexists. split.
  - rewrite add_basemap_run. simpl basemap_name. rewrite Hname. reflexivity.
  - repeat split.
Qed.

Lemma add_basemap_resolved_witness :
  exists m' : Map,
    temp_interpolation.add_basemap (B := World.scripted_basemaps)
        (Some "OpenTopoMap if self.add_layer_control() is None else None")
        Sample.map0 = (Ok tt, m') /\
    layers m' =
      layers (with_control Sample.map0 (mkControl LayersControl [])) ++
      [mkLayer TileLayer
         [("url", VStr Sample.topo_url);
          ("name",
           VStr "OpenTopoMap if self.add_layer_control() is None else None")]]
    /\
    controls m' =
      controls (with_control Sample.map0 (mkControl LayersControl [])) /\
    center m' =
      center (with_control Sample.map0 (mkControl LayersControl [])) /\
    zoom m' = zoom (with_control Sample.map0 (mkControl LayersControl [])) /\
    tasks m' = tasks (with_control Sample.map0 (mkControl LayersControl [])).
Proof.
  apply (add_basemap_resolved World.scripted_basemaps Sample.map0
           (with_control Sample.map0 (mkControl LayersControl []))
           "OpenTopoMap if self.add_layer_control() is None else None"
           Sample.topo_url).
  reflexivity.
Defined.

(** X4.  When the name and then OpenTopoMap both fail to resolve,
    [add_basemap] raises the exception OpenTopoMap raised, not the one the
    name raised, and attaches nothing: the map is as the two failed
    resolutions left it (for a plain name: as it was). *)
Theorem add_basemap_fallback_fails :
  forall (B : Basemaps) (m m1 m2 : Map) (name : string) (e e0 : exn),
    resolve name m = (Raise e, m1) ->
    resolve "OpenTopoMap" m1 = (Raise e0, m2) ->
    temp_interpolation.add_basemap (Some name) m = (Raise e0, m2).
Proof.
  intros B m m1 m2 name e e0 Hname Hdflt.
  rewrite add_basemap_run. simpl basemap_name. now rewrite Hname, Hdflt.
Qed.

Lemma add_basemap_fallback_fails_witness :
  temp_interpolation.add_basemap (B := World.no_basemaps)
      (Some "Open Topo Map") Sample.map0 =
    (Raise (OtherError "AttributeError"), Sample.map0).
Proof.
  apply (add_basemap_fallback_fails World.no_basemaps Sample.map0
           Sample.map0 Sample.map0 "Open Topo Map"
           (OtherError "SyntaxError") (OtherError "AttributeError"));
    reflexivity.
Defined.

(** X5.  As long as OpenTopoMap resolves on whatever map it is asked on,
    [add_basemap] never raises: for every name, given or omitted, it ends
    with one tile layer, named as asked, appended to the map as the
    resolution left it; the url is the name's own when the name resolves
    and OpenTopoMap's otherwise. *)
Theorem add_basemap_total :
  forall (B : Basemaps) (m : Map) (basemap : option string),
    (forall m1 : Map,
        exists (u0 : string) (m2 : Map),
          resolve "OpenTopoMap" m1 = (Ok u0, m2)) ->
    let name := match basemap with Some b => b | None => "OpenTopoMap" end in
    exists (url : string) (resolved m' : Map),
      temp_interpolation.add_basemap basemap m = (Ok tt, m') /\
      layers m' =
        layers resolved ++
        [mkLayer TileLayer [("url", VStr url); ("name", VStr name)]] /\
      controls m' = controls resolved /\
      center m' = center resolved /\ zoom m' = zoom resolved /\
      tasks m' = tasks resolved /\
      (resolve name m = (Ok url, resolved) \/
       exists (e : exn) (m1 : Map),
         resolve name m = (Raise e, m1) /\
         resolve "OpenTopoMap" m1 = (Ok url, resolved)).
Proof.
  intros B m basemap Hdflt name.
  rewrite add_basemap_run. change (basemap_name basemap) with name.
  destruct (resolve name m) as [[u|e] m1] eqn:Hname.
  - exists u, m1. eexists. split; [reflexivity|].
    repeat split. now left.
  - destruct (Hdflt m1) as (u0 & m2 & Hu0). rewrite Hu0.
    exists u0, m2. eexists. split; [reflexivity|].
    repeat split. right. now exists e, m1.
Qed.

Lemma add_basemap_total_witness :
  exists (url : string) (resolved m' : Map),
    temp_interpolation.add_basemap (B := World.basemaps)
        (Some "CartoDB") Sample.map0 = (Ok tt, m') /\
    layers m' =
      layers resolved ++
      [mkLayer TileLayer [("url", VStr url); ("name", VStr "CartoDB")]] /\
    controls m' = controls resolved /\
    center m' = center resolved /\ zoom m' = zoom resolved /\
    tasks m' = tasks resolved /\
    (resolve (B := World.basemaps) "CartoDB" Sample.map0 = (Ok url, resolved)
     \/
     exists (e : exn) (m1 : Map),
       resolve (B := World.basemaps) "CartoDB" Sample.map0 = (Raise e, m1) /\
       resolve (B := World.basemaps) "OpenTopoMap" m1 = (Ok url, resolved)).
Proof.
  apply (add_basemap_total World.basemaps Sample.map0 (Some "CartoDB")).
  intros m1. exists Sample.topo_url, m1. reflexivity.
Defined.

(** A call with a plain name either appends one tile layer to the map as
    it was, or raises and leaves the map as it was. *)
Lemma add_basemap_plain (B : Basemaps) (basemap : option string)
    (m m' : Map) (outcome : result unit) :
  plain_lookup (Call_add_basemap basemap) m ->
  temp_interpolation.add_basemap basemap m = (outcome, m') ->
  (outcome = Ok tt /\ exists l : Layer, m' = with_layer m l) \/
  ((exists e, outcome = Raise e) /\ m' = m).
Proof.
  intros [Hname Hdflt]. rewrite add_basemap_run.
  destruct (resolve (basemap_name basemap) m) as [[u|e] m1];
    simpl in Hname; subst m1.
  - intros [= <- <-]. left. split; [reflexivity|]. now eexists.
  - destruct (resolve "OpenTopoMap" m) as [[u0|e0] m2];
      simpl in Hdflt; subst m2.
    + intros [= <- <-]. left. split; [reflexivity|]. now eexists.
    + intros [= <- <-]. right. split; [now exists e0 | reflexivity].
Qed.

(** ** add_vector *)

Lemma hover_style_used_eq (hover_style : option value) :
  (if is_None (default_arg VNone hover_style)
   then VDict [("color", VStr "yellow"); ("fillOpacity", VFloat 0.2)]
   else default_arg VNone hover_style) = hover_style_used hover_style.
Proof. destruct hover_style as [[]|]; reflexivity. Qed.










(** The keyword [add_vector] hands the hover style to is [hover_sytle]:
    unless the caller's own keywords carry a [hover_style], the widget's
    [hover_style] trait is never set. *)
Lemma add_vector_hover_style_unset (data : value) (hover_style : option value)
    (kw : kwargs) :
  has_key "hover_style" kw = false ->
  trait (gjson_of data hover_style kw) "hover_style" = None /\
  trait (gjson_of data hover_style kw) "hover_sytle" =
    Some (hover_style_used hover_style).
Proof.
  intros Hk. split; [|reflexivity].
  unfold trait, gjson_of. simpl.
  induction kw as [|[k v] r IH]; [reflexivity|].
  simpl in Hk |- *. apply orb_false_elim in Hk. destruct Hk as [Hk Hr].
  rewrite Hk. now apply IH.
Qed.

(** C8.  [add_vector] on a feature collection, with [zoom_to_layer] false
    and no hover style given: the call returns normally and the appended
    GeoJSON widget has no [hover_style] trait set; the yellow default sits
    under the keyword [hover_sytle] instead. *)
Theorem add_vector_hover_style_misspelled :
  exists gjson : Layer,
    temp_interpolation.add_vector (G := Sample.geopandas)
        (VDict Sample.collection) (Some false) None [] Sample.map0 =
      (Ok tt, with_layer Sample.map0 gjson) /\
    trait gjson "hover_style" = None /\
    trait gjson "hover_sytle" =
      Some (VDict [("color", VStr "yellow"); ("fillOpacity", VFloat 0.2)]).
Proof.
  exists (gjson_of (VDict Sample.collection) None []).
  split; [reflexivity|].
  now apply add_vector_hover_style_unset.
Qed.

(** X7.  A [vector] that is neither a str nor a dict (a GeoDataFrame object,
    a list, None ...) assigns neither local: the call raises
    UnboundLocalError on [data] and the map is as it was. *)
Theorem add_vector_other_type_unbound :
  forall (G : Geopandas) (m : Map) (vector : value)
         (zoom_to_layer : option bool) (hover_style : option value)
         (kw : kwargs),
    (forall s, vector <> VStr s) ->
    (forall d, vector <> VDict d) ->
    temp_interpolation.add_vector vector zoom_to_layer hover_style kw m =
      (Raise (UnboundLocalError "data"), m).
Proof.
  intros G m vector z h kw Hstr Hdict.
  destruct vector; try reflexivity.
  - now destruct (Hstr s).
  - now destruct (Hdict d).
Qed.

Lemma add_vector_other_type_unbound_witness :
  temp_interpolation.add_vector (G := Sample.geopandas)
      (VObject "GeoDataFrame") None None [] Sample.map0 =
    (Raise (UnboundLocalError "data"), Sample.map0).
Proof.
  apply (add_vector_other_type_unbound Sample.geopandas Sample.map0
           (VObject "GeoDataFrame") None None []);
    intros x Hx; discriminate Hx.
Defined.

(** X8.  When reading the file or reprojecting it raises, [add_vector]
    raises the same exception and the map is as it was: no layer, no
    fitted view. *)
Theorem add_vector_load_failure :
  forall (G : Geopandas) (m : Map) (path : string)
         (zoom_to_layer : option bool) (hover_style : option value)
         (kw : kwargs) (e : exn),
    rbind (read_file path) (fun gdf => to_crs gdf 4326) = Raise e ->
    temp_interpolation.add_vector (VStr path) zoom_to_layer hover_style kw m =
      (Raise e, m).
Proof.
  intros G m path z h kw e Hload.
  cbv [temp_interpolation.add_vector bind lift ret].
  destruct (read_file path) as [g|e1]; simpl in Hload.
  - now rewrite Hload.
  - now injection Hload as ->.
Qed.

Lemma add_vector_load_failure_witness :
  temp_interpolation.add_vector (G := Sample.geopandas)
      (VStr "missing.shp") None None [] Sample.map0 =
    (Raise (OtherError "DriverError"), Sample.map0).
Proof.
  apply (add_vector_load_failure Sample.geopandas Sample.map0 "missing.shp"
           None None [] (OtherError "DriverError")).
  reflexivity.
Defined.

(** X9.  Once [add_vector] has its data (a dict was given, or the file was
    read and reprojected), extra keywords that carry [data] or
    [hover_sytle], the two keywords the call to GeoJSON already writes,
    make it raise TypeError on one of them before the widget is built; the
    map is as it was. *)
Theorem add_vector_keyword_clash :
  forall (G : Geopandas) (m : Map) (vector : value)
         (zoom_to_layer : option bool) (hover_style : option value)
         (kw : kwargs),
    ((exists d, vector = VDict d) \/
     (exists (path : string) (g g' : GeoDataFrame),
         vector = VStr path /\ read_file path = Ok g /\
         to_crs g 4326 = Ok g')) ->
    has_key "data" kw = true \/ has_key "hover_sytle" kw = true ->
    exists k : string,
      temp_interpolation.add_vector vector zoom_to_layer hover_style kw m =
        (Raise (TypeError k), m) /\
      In k ["data"; "hover_sytle"].
Proof.
  intros G m vector z h kw Hdata Hk.
  assert (Hclash : exists k, In k ["data"; "hover_sytle"] /\
                             has_key k kw = true).
  { destruct Hk as [Hk | Hk];
      [exists "data" | exists "hover_sytle"]; simpl; tauto. }
  destruct Hclash as (k0 & Hin & Hhas).
  destruct Hdata as [[d ->] | (path & g & g' & -> & Hread & Hcrs)].
  - destruct (call_kwargs_clash
                [("data", VDict d); ("hover_sytle", hover_style_used h)]
                kw k0 Hin Hhas) as (k & Hcall & Hk').
    exists k. split; [|exact Hk'].
    cbv [temp_interpolation.add_vector bind lift ret local fst snd].
    rewrite hover_style_used_eq, Hcall. reflexivity.
  - destruct (call_kwargs_clash
                [("data", geo_interface g');
                 ("hover_sytle", hover_style_used h)]
                kw k0 Hin Hhas) as (k & Hcall & Hk').
    exists k. split; [|exact Hk'].
    cbv [temp_interpolation.add_vector bind lift ret local fst snd].
    rewrite hover_style_used_eq, Hread, Hcrs, Hcall. reflexivity.
Qed.

Lemma add_vector_keyword_clash_witness :
  exists k : string,
    temp_interpolation.add_vector (G := Sample.geopandas)
        (VStr "parcels.geojson") None None
        [("style", VDict [("color", VStr "red")]); ("data", VDict [])]
        Sample.map0 =
      (Raise (TypeError k), Sample.map0) /\
    In k ["data"; "hover_sytle"].
Proof.
  apply (add_vector_keyword_clash Sample.geopandas Sample.map0
           (VStr "parcels.geojson") None None
           [("style", VDict [("color", VStr "red")]); ("data", VDict [])]).
  - right. exists "parcels.geojson", Sample.parcels, Sample.parcels.
    repeat split.
  - left. reflexivity.
Defined.

Ltac run_cases H :=
  repeat match type of H with
         | context [match ?r with _ => _ end] =>
             lazymatch r with
             | context [match _ with _ => _ end] => fail
             | _ => destruct r eqn:?; cbv beta iota in H
             end
         end;
  try discriminate H.

Ltac unfold_helpers H :=
  cbv beta iota zeta delta
    [run_helper
     temp_interpolation.add_google_map
     temp_interpolation.add_vector temp_interpolation.add_layer_control
     temp_interpolation.add_raster temp_interpolation.add_image
     temp_interpolation.add_video temp_interpolation.add_wms_layer
     bind lift ret local seq_getitem nth_error fst snd rbind new_widget
     add_layer add_control fit_bounds set_center set_zoom] in H.

(** X10.  Whatever [add_vector] is given and however it ends, a layer it
    has put on the map has no [hover_style] trait: the style, the caller's
    or the default, never reaches the widget under that name.  (The extra
    keywords cannot carry [hover_style]: it is a parameter of
    [add_vector].) *)
Theorem add_vector_never_sets_hover_style :
  forall (G : Geopandas) (m m' : Map) (vector : value)
         (zoom_to_layer : option bool) (hover_style : option value)
         (kw : kwargs) (outcome : result unit) (l : Layer),
    has_key "hover_style" kw = false ->
    temp_interpolation.add_vector vector zoom_to_layer hover_style kw m =
      (outcome, m') ->
    In l (layers m') ->
    In l (layers m) \/ trait l "hover_style" = None.
Proof.
  intros G m m' vector z h kw outcome l Hk Hrun Hin.
  cbv beta iota zeta delta
    [temp_interpolation.add_vector bind lift ret local seq_getitem nth_error
     fst snd add_layer fit_bounds] in Hrun.
  run_cases Hrun.
  all: injection Hrun as <- <-.
  all: try (left; exact Hin).
  all: simpl in Hin; apply in_app_or in Hin; destruct Hin as [Hin | Hin];
    [left; exact Hin | right].
  all: destruct Hin as [<- | []].
  all: match goal with
       | H : call_kwargs _ _ = Ok _ |- _ =>
           apply call_kwargs_ok_inv in H; subst
       end.
  all: unfold trait; simpl; now apply assoc_has_key_false.
Qed.

Lemma add_vector_never_sets_hover_style_witness :
  In (gjson_of (VDict Sample.collection) (Some (VDict [("color", VStr "red")])) [])
     (layers Sample.map0)
  \/ trait (gjson_of (VDict Sample.collection)
              (Some (VDict [("color", VStr "red")])) [])
       "hover_style" = None.
Proof.
  apply (add_vector_never_sets_hover_style Sample.geopandas Sample.map0
           (with_layer Sample.map0
              (gjson_of (VDict Sample.collection)
                 (Some (VDict [("color", VStr "red")])) []))
           (VDict Sample.collection) (Some false)
           (Some (VDict [("color", VStr "red")])) [] (Ok tt)).
  - reflexivity.
  - reflexivity.
  - left. reflexivity.
Defined.

(** ** add_image and add_video *)



(** ** add_raster *)

(** [add_raster] up to the point where the tile layer is on the map. *)
Lemma add_raster_run (V : Traitlets) (T : TileServer) (m : Map) (url : value)
    (name colormap opacity : option value) (kw : kwargs)
    (client : TileClient) (tile_layer : Layer) :
  no_clash ["name"; "colormap"; "opacity"] kw ->
  TileClient_new url = Ok client ->
  get_leaflet_tile_layer client
    ([("name", match name with Some v => v | None => VNone end);
      ("colormap", match colormap with Some v => v | None => VNone end);
      ("opacity", match opacity with Some v => v | None => VNone end)]
       ++ kw) = Ok tile_layer ->
  temp_interpolation.add_raster url name colormap opacity kw m =
    match rbind (client_center client) (validate_attr "center") with
    | Ok c =>
        match rbind (default_zoom client) (validate_attr "zoom") with
        | Ok z => (Ok tt, with_zoom (with_center (with_layer m tile_layer) c) z)
        | Raise e => (Raise e, with_center (with_layer m tile_layer) c)
        end
    | Raise e => (Raise e, with_layer m tile_layer)
    end.
Proof.
  intros Hno Hclient Hlayer.
  cbv [temp_interpolation.add_raster bind lift add_layer set_center set_zoom
       rbind].
  rewrite Hclient.
  rewrite (call_kwargs_no_clash
             [("name", default_arg VNone name);
              ("colormap", default_arg VNone colormap);
              ("opacity", default_arg VNone opacity)] kw Hno).
  replace (get_leaflet_tile_layer client _) with (Ok tile_layer)
    by (rewrite <- Hlayer; destruct name, colormap, opacity; reflexivity).
  destruct (client_center client) as [c|e]; [|reflexivity].
  destruct (validate_attr "center" c) as [c'|e]; [|reflexivity].
  destruct (default_zoom client) as [z|e]; [|reflexivity].
  now destruct (validate_attr "zoom" z) as [z'|e].
Qed.

(** X11.  When the tile client opens the raster and every later step
    succeeds, [add_raster] returns normally; the layers are then the old
    ones followed by the very layer [get_leaflet_tile_layer] returned for
    the keywords name, colormap, opacity (each None when omitted) and the
    extra keywords, and the center and the zoom are the client's center
    and default zoom as the two traits store them. *)
Theorem add_raster_success :
  forall (V : Traitlets) (T : TileServer) (m : Map) (url : value)
         (name colormap opacity : option value) (kw : kwargs)
         (client : TileClient) (tile_layer : Layer) (c z c' z' : value),
    no_clash ["name"; "colormap"; "opacity"] kw ->
    TileClient_new url = Ok client ->
    get_leaflet_tile_layer client
      ([("name", match name with Some v => v | None => VNone end);
        ("colormap", match colormap with Some v => v | None => VNone end);
        ("opacity", match opacity with Some v => v | None => VNone end)]
         ++ kw) = Ok tile_layer ->
    client_center client = Ok c ->
    validate_attr "center" c = Ok c' ->
    default_zoom client = Ok z ->
    validate_attr "zoom" z = Ok z' ->
    exists m' : Map,
      temp_interpolation.add_raster url name colormap opacity kw m =
        (Ok tt, m') /\
      layers m' = layers m ++ [tile_layer] /\
      center m' = c' /\
      zoom m' = z' /\
      controls m' = controls m /\
      tasks m' = tasks m.
Proof.
  intros V T m url name colormap opacity kw client tile_layer c z c' z'
         Hno Hclient Hlayer Hc Hc' Hz Hz'.
  eexists. split.
  - rewrite (add_raster_run V T m url name colormap opacity kw client
               tile_layer Hno Hclient Hlayer).
    rewrite Hc, Hz. simpl. rewrite Hc', Hz'. reflexivity.
  - repeat split.
Qed.

Lemma add_raster_success_witness :
  exists m' : Map,
    temp_interpolation.add_raster (V := Sample.traits)
        (T := World.tileserver)
        (VStr "dem.tif") (Some (VStr "DEM")) None None [] Sample.map0 =
      (Ok tt, m') /\
    layers m' =
      layers Sample.map0 ++
      [mkLayer TileLayer
         [("url", VStr "dem.tif"); ("name", VStr "DEM");
          ("colormap", VNone); ("opacity", VNone)]] /\
    center m' = VList [VFloat 27.5; VFloat 86.75] /\
    zoom m' = VFloat 9 /\
    controls m' = controls Sample.map0 /\
    tasks m' = tasks Sample.map0.
Proof.
  apply (add_raster_success Sample.traits World.tileserver Sample.map0
           (VStr "dem.tif") (Some (VStr "DEM")) None None [] "dem.tif"
           (mkLayer TileLayer
              [("url", VStr "dem.tif"); ("name", VStr "DEM");
               ("colormap", VNone); ("opacity", VNone)])
           (VTuple [VFloat 27.5; VFloat 86.75]) (VInt 9)).
  - intros k _. reflexivity.
  - reflexivity.
  - reflexivity.
  - reflexivity.
  - reflexivity.
  - reflexivity.
  - reflexivity.
Defined.

(** X12.  When the tile client cannot be made, or the tile layer cannot be
    built from it, [add_raster] raises that exception and the map is as it
    was. *)
Theorem add_raster_source_failure :
  forall (V : Traitlets) (T : TileServer) (m : Map) (url : value)
         (name colormap opacity : option value) (kw : kwargs) (e : exn),
    no_clash ["name"; "colormap"; "opacity"] kw ->
    rbind (TileClient_new url)
      (fun client =>
         get_leaflet_tile_layer client
           ([("name", match name with Some v => v | None => VNone end);
             ("colormap", match colormap with Some v => v | None => VNone end);
             ("opacity", match opacity with Some v => v | None => VNone end)]
              ++ kw)) = Raise e ->
    temp_interpolation.add_raster url name colormap opacity kw m =
      (Raise e, m).
Proof.
  intros V T m url name colormap opacity kw e Hno Hfail.
  cbv [temp_interpolation.add_raster bind lift add_layer set_center set_zoom].
  destruct (TileClient_new url) as [client|e1]; simpl in Hfail.
  - rewrite (call_kwargs_no_clash
               [("name", default_arg VNone name);
                ("colormap", default_arg VNone colormap);
                ("opacity", default_arg VNone opacity)] kw Hno).
    replace (get_leaflet_tile_layer client _) with (@Raise Layer e)
      by (rewrite <- Hfail; destruct name, colormap, opacity; reflexivity).
    reflexivity.
  - now injection Hfail as ->.
Qed.

Lemma add_raster_source_failure_witness :
  temp_interpolation.add_raster (V := Sample.traits) (T := World.tileserver)
      (VStr "missing.tif") None None None [] Sample.map0 =
    (Raise (OtherError "FileNotFoundError"), Sample.map0).
Proof.
  apply (add_raster_source_failure Sample.traits World.tileserver Sample.map0
           (VStr "missing.tif") None None None []
           (OtherError "FileNotFoundError")).
  - intros k _. reflexivity.
  - reflexivity.
Defined.

(** X13.  When the client has no center to report, or the center trait
    does not take what it reports, [add_raster] raises after the tile
    layer is on the map: the layers are the old ones followed by that
    layer, and the center and the zoom keep their old values. *)
Theorem add_raster_center_failure :
  forall (V : Traitlets) (T : TileServer) (m : Map) (url : value)
         (name colormap opacity : option value) (kw : kwargs)
         (client : TileClient) (tile_layer : Layer) (e : exn),
    no_clash ["name"; "colormap"; "opacity"] kw ->
    TileClient_new url = Ok client ->
    get_leaflet_tile_layer client
      ([("name", match name with Some v => v | None => VNone end);
        ("colormap", match colormap with Some v => v | None => VNone end);
        ("opacity", match opacity with Some v => v | None => VNone end)]
         ++ kw) = Ok tile_layer ->
    rbind (client_center client) (validate_attr "center") = Raise e ->
    exists m' : Map,
      temp_interpolation.add_raster url name colormap opacity kw m =
        (Raise e, m') /\
      layers m' = layers m ++ [tile_layer] /\
      center m' = center m /\
      zoom m' = zoom m.
Proof.
  intros V T m url name colormap opacity kw client tile_layer e
         Hno Hclient Hlayer Hc.
  eexists. split.
  - rewrite (add_raster_run V T m url name colormap opacity kw client
               tile_layer Hno Hclient Hlayer).
    rewrite Hc. reflexivity.
  - repeat split.
Qed.

Lemma add_raster_center_failure_witness :
  exists m' : Map,
    temp_interpolation.add_raster (V := Sample.traits)
        (T := World.tileserver)
        (VStr "nocenter.tif") (Some (VStr "relief")) None None []
        Sample.map0 = (Raise (OtherError "ValueError"), m') /\
    layers m' =
      layers Sample.map0 ++
      [mkLayer TileLayer
         [("url", VStr "nocenter.tif"); ("name", VStr "relief");
          ("colormap", VNone); ("opacity", VNone)]] /\
    center m' = center Sample.map0 /\
    zoom m' = zoom Sample.map0.
Proof.
  apply (add_raster_center_failure Sample.traits World.tileserver Sample.map0
           (VStr "nocenter.tif") (Some (VStr "relief")) None None []
           "nocenter.tif").
  - intros k _. reflexivity.
  - reflexivity.
  - reflexivity.
  - reflexivity.
Defined.

(** X14.  When the center has been set and the client then has no default
    zoom to report, or the zoom trait does not take it, [add_raster] raises
    with the layer attached and the center already moved: the layers are
    the old ones followed by the tile layer, the center is the client's as
    the trait stores it, and only the zoom keeps its old value. *)
Theorem add_raster_zoom_failure :
  forall (V : Traitlets) (T : TileServer) (m : Map) (url : value)
         (name colormap opacity : option value) (kw : kwargs)
         (client : TileClient) (tile_layer : Layer) (c c' : value) (e : exn),
    no_clash ["name"; "colormap"; "opacity"] kw ->
    TileClient_new url = Ok client ->
    get_leaflet_tile_layer client
      ([("name", match name with Some v => v | None => VNone end);
        ("colormap", match colormap with Some v => v | None => VNone end);
        ("opacity", match opacity with Some v => v | None => VNone end)]
         ++ kw) = Ok tile_layer ->
    client_center client = Ok c ->
    validate_attr "center" c = Ok c' ->
    rbind (default_zoom client) (validate_attr "zoom") = Raise e ->
    exists m' : Map,
      temp_interpolation.add_raster url name colormap opacity kw m =
        (Raise e, m') /\
      layers m' = layers m ++ [tile_layer] /\
      center m' = c' /\
      zoom m' = zoom m.
Proof.
  intros V T m url name colormap opacity kw client tile_layer c c' e
         Hno Hclient Hlayer Hc Hc' Hz.
  eexists. split.
  - rewrite (add_raster_run V T m url name colormap opacity kw client
               tile_layer Hno Hclient Hlayer).
    rewrite Hc, Hz. simpl. rewrite Hc'. reflexivity.
  - repeat split.
Qed.

Lemma add_raster_zoom_failure_witness :
  exists m' : Map,
    temp_interpolation.add_raster (V := Sample.traits)
        (T := World.tileserver)
        (VStr "nozoom.tif") (Some (VStr "relief")) None None []
        Sample.map0 = (Raise (OtherError "ValueError"), m') /\
    layers m' =
      layers Sample.map0 ++
      [mkLayer TileLayer
         [("url", VStr "nozoom.tif"); ("name", VStr "relief");
          ("colormap", VNone); ("opacity", VNone)]] /\
    center m' = VList [VFloat 27.5; VFloat 86.75] /\
    zoom m' = zoom Sample.map0.
Proof.
  apply (add_raster_zoom_failure Sample.traits World.tileserver Sample.map0
           (VStr "nozoom.tif") (Some (VStr "relief")) None None []
           "nozoom.tif"
           (mkLayer TileLayer
              [("url", VStr "nozoom.tif"); ("name", VStr "relief");
               ("colormap", VNone); ("opacity", VNone)])
           (VTuple [VFloat 27.5; VFloat 86.75])).
  - intros k _. reflexivity.
  - reflexivity.
  - reflexivity.
  - reflexivity.
  - reflexivity.
  - reflexivity.
Defined.

(** ** add_wms_layer *)

(** X15.  Whenever the WMSLayer constructor takes the keywords,
    [add_wms_layer] returns normally; the layers are then the old ones
    followed by one WMSLayer built with the url and the layer names as
    given, and with name, format, transparent and version as given or, when
    omitted, None, image/png, True and 1.1.1. *)
Theorem add_wms_layer_passes_through :
  forall (V : Traitlets) (m : Map) (url layers_ : value)
         (name format transparent version : option value) (kw : kwargs),
    no_clash ["url"; "layers"; "name"; "format"; "transparent"; "version"] kw ->
    validate_widget WMSLayer
      ([("url", url); ("layers", layers_);
        ("name", match name with Some v => v | None => VNone end);
        ("format",
         match format with Some v => v | None => VStr "image/png" end);
        ("transparent",
         match transparent with Some v => v | None => VBool true end);
        ("version",
         match version with Some v => v | None => VStr "1.1.1" end)]
         ++ kw) = Ok tt ->
    exists (wms : Layer) (m' : Map),
      temp_interpolation.add_wms_layer url layers_ name format transparent
          version kw m = (Ok tt, m') /\
      layers m' = layers m ++ [wms] /\
      layer_class wms = WMSLayer /\
      trait wms "url" = Some url /\
      trait wms "layers" = Some layers_ /\
      trait wms "name" = Some (match name with Some v => v | None => VNone end) /\
      trait wms "format" =
        Some (match format with Some v => v | None => VStr "image/png" end) /\
      trait wms "transparent" =
        Some (match transparent with Some v => v | None => VBool true end) /\
      trait wms "version" =
        Some (match version with Some v => v | None => VStr "1.1.1" end).
Proof.
  intros V m url layers_ name format transparent version kw Hno Hvalid.
  eexists. eexists.
  cbv [temp_interpolation.add_wms_layer bind lift add_layer new_widget].
  rewrite (call_kwargs_no_clash
             [("url", url); ("layers", layers_);
              ("name", default_arg VNone name);
              ("format", default_arg (VStr "image/png") format);
              ("transparent", default_arg (VBool true) transparent);
              ("version", default_arg (VStr "1.1.1") version)] kw Hno).
  replace (validate_widget WMSLayer _) with (Ok tt)
    by (rewrite <- Hvalid;
        destruct name, format, transparent, version; reflexivity).
  split; [reflexivity|].
  destruct name, format, transparent, version; repeat split.
Qed.

Lemma add_wms_layer_passes_through_witness :
  exists (wms : Layer) (m' : Map),
    temp_interpolation.add_wms_layer (V := Sample.traits)
        (VStr "https://ows.terrestris.de/osm/service") (VStr "OSM-WMS")
        (Some (VStr "OSM")) None None None [("attribution", VStr "terrestris")]
        Sample.map0 = (Ok tt, m') /\
    layers m' = layers Sample.map0 ++ [wms] /\
    layer_class wms = WMSLayer /\
    trait wms "url" = Some (VStr "https://ows.terrestris.de/osm/service") /\
    trait wms "layers" = Some (VStr "OSM-WMS") /\
    trait wms "name" = Some (VStr "OSM") /\
    trait wms "format" = Some (VStr "image/png") /\
    trait wms "transparent" = Some (VBool true) /\
    trait wms "version" = Some (VStr "1.1.1").
Proof.
  apply (add_wms_layer_passes_through Sample.traits Sample.map0
           (VStr "https://ows.terrestris.de/osm/service") (VStr "OSM-WMS")
           (Some (VStr "OSM")) None None None
           [("attribution", VStr "terrestris")]).
  - intros k Hk. simpl in Hk.
    destruct Hk as [<- | [<- | [<- | [<- | [<- | [<- | []]]]]]]; reflexivity.
  - reflexivity.
Defined.

(** X23.  A keyword the overlay's or the WMS layer's constructor does not
    take (a bounds that is None, a name that is None ...) makes
    [add_image], [add_video] and [add_wms_layer] raise the constructor's
    exception; nothing is attached and the map is as it was. *)
Theorem overlay_constructor_refuses :
  forall (V : Traitlets) (m : Map) (url bounds layers_ : value)
         (opacity name format transparent version : option value)
         (kw : kwargs) (e : exn),
    (no_clash ["url"; "bounds"; "opacity"] kw ->
     validate_widget ImageOverlay
       ([("url", url); ("bounds", bounds);
         ("opacity", match opacity with Some o => o | None => VInt 1 end)]
          ++ kw) = Raise e ->
     temp_interpolation.add_image url bounds opacity kw m = (Raise e, m)) /\
    (no_clash ["url"; "bounds"; "opacity"] kw ->
     validate_widget VideoOverlay
       ([("url", url); ("bounds", bounds);
         ("opacity", match opacity with Some o => o | None => VInt 1 end)]
          ++ kw) = Raise e ->
     temp_interpolation.add_video url bounds opacity kw m = (Raise e, m)) /\
    (no_clash ["url"; "layers"; "name"; "format"; "transparent"; "version"]
       kw ->
     validate_widget WMSLayer
       ([("url", url); ("layers", layers_);
         ("name", match name with Some v => v | None => VNone end);
         ("format",
          match format with Some v => v | None => VStr "image/png" end);
         ("transparent",
          match transparent with Some v => v | None => VBool true end);
         ("version",
          match version with Some v => v | None => VStr "1.1.1" end)]
          ++ kw) = Raise e ->
     temp_interpolation.add_wms_layer url layers_ name format transparent
       version kw m = (Raise e, m)).
Proof.
  intros V m url bounds layers_ opacity name format transparent version kw e.
  repeat split; intros Hno Hvalid.
  - cbv [temp_interpolation.add_image bind lift add_layer new_widget].
    rewrite (call_kwargs_no_clash
               [("url", url); ("bounds", bounds);
                ("opacity", default_arg (VInt 1) opacity)] kw Hno).
    replace (validate_widget ImageOverlay _) with (@Raise unit e)
      by (rewrite <- Hvalid; destruct opacity; reflexivity).
    reflexivity.
  - cbv [temp_interpolation.add_video bind lift add_layer new_widget].
    rewrite (call_kwargs_no_clash
               [("url", url); ("bounds", bounds);
                ("opacity", default_arg (VInt 1) opacity)] kw Hno).
    replace (validate_widget VideoOverlay _) with (@Raise unit e)
      by (rewrite <- Hvalid; destruct opacity; reflexivity).
    reflexivity.
  - cbv [temp_interpolation.add_wms_layer bind lift add_layer new_widget].
    rewrite (call_kwargs_no_clash
               [("url", url); ("layers", layers_);
                ("name", default_arg VNone name);
                ("format", default_arg (VStr "image/png") format);
                ("transparent", default_arg (VBool true) transparent);
                ("version", default_arg (VStr "1.1.1") version)] kw Hno).
    replace (validate_widget WMSLayer _) with (@Raise unit e)
      by (rewrite <- Hvalid;
          destruct name, format, transparent, version; reflexivity).
    reflexivity.
Qed.

Lemma overlay_constructor_refuses_witness :
  temp_interpolation.add_image (V := Sample.traits) (VStr "radar.png") VNone
      None [] Sample.map0 = (Raise (OtherError "TraitError"), Sample.map0) /\
  temp_interpolation.add_video (V := Sample.traits) (VStr "radar.mp4") VNone
      None [] Sample.map0 = (Raise (OtherError "TraitError"), Sample.map0) /\
  temp_interpolation.add_wms_layer (V := Sample.traits)
      (VStr "https://ows.terrestris.de/osm/service") (VStr "OSM-WMS")
      None None None None [] Sample.map0 =
    (Raise (OtherError "TraitError"), Sample.map0).
Proof.
  split; [|split].
  - apply (overlay_constructor_refuses Sample.traits Sample.map0
             (VStr "radar.png") VNone VNone None None None None None []
             (OtherError "TraitError")).
    + intros k _. reflexivity.
    + reflexivity.
  - apply (overlay_constructor_refuses Sample.traits Sample.map0
             (VStr "radar.mp4") VNone VNone None None None None None []
             (OtherError "TraitError")).
    + intros k _. reflexivity.
    + reflexivity.
  - apply (overlay_constructor_refuses Sample.traits Sample.map0
             (VStr "https://ows.terrestris.de/osm/service") VNone
             (VStr "OSM-WMS") None None None None None []
             (OtherError "TraitError")).
    + intros k _. reflexivity.
    + reflexivity.
Defined.

(** ** foliummap.Map *)

Lemma layer_controls_add_to (e : folium.Element) (fm : folium.Map) :
  folium.layer_controls (folium.add_to e fm) =
    folium.layer_controls fm ++ (if folium.is_LayerControl e then [e] else []).
Proof.
  unfold folium.layer_controls, folium.add_to. simpl.
  rewrite filter_app. simpl. now destruct (folium.is_LayerControl e).
Qed.

(** C10.  Whenever the folium base constructor accepts the center, zoom and
    extra keywords and itself attaches no layer control, constructing the
    wrapper succeeds, and the map it gives has exactly one layer control
    among its children. *)
Theorem foliummap_init_one_layer_control :
  forall (W : folium.MapWidget) (center zoom : option value) (kw : kwargs)
         (base : folium.Map),
    no_clash ["location"; "zoom_start"] kw ->
    folium.Map_new
      ([("location", default_arg (VTuple [VInt 0; VInt 0]) center);
        ("zoom_start", default_arg (VInt 3) zoom)] ++ kw) = Ok base ->
    folium.layer_controls base = [] ->
    exists self : folium.Map,
      foliummap.__init__ center zoom kw = Ok self /\
      length (folium.layer_controls self) = 1%nat.
Proof.
  intros W center zoom kw base Hno Hnew Hnone.
  exists (folium.add_to (folium.LayerControl []) base). split.
  - unfold foliummap.__init__.
    rewrite (call_kwargs_no_clash
               [("location", default_arg (VTuple [VInt 0; VInt 0]) center);
                ("zoom_start", default_arg (VInt 3) zoom)] kw Hno).
    cbv beta iota delta [rbind]. rewrite Hnew. reflexivity.
  - rewrite layer_controls_add_to, Hnone. reflexivity.
Qed.

Lemma foliummap_init_one_layer_control_witness :
  exists self : folium.Map,
    foliummap.__init__ (W := Sample.folium_widget)
        (Some (VTuple [VInt 19; VInt 72])) None [("tiles", VStr "OpenStreetMap")]
      = Ok self /\
    length (folium.layer_controls self) = 1%nat.
Proof.
  apply (foliummap_init_one_layer_control Sample.folium_widget
           (Some (VTuple [VInt 19; VInt 72])) None
           [("tiles", VStr "OpenStreetMap")]
           (folium.mkMap
              [("location", VTuple [VInt 19; VInt 72]); ("zoom_start", VInt 3);
               ("tiles", VStr "OpenStreetMap")]
              [folium.TileLayer [("tiles", VStr "OpenStreetMap")]])).
  - intros k Hk. simpl in Hk. destruct Hk as [<- | [<- | []]]; reflexivity.
  - reflexivity.
  - reflexivity.
Defined.

(** ** foliummap.Map, continued *)

(** X19.  A folium wrapper that was constructed is the map the base
    constructor built from location=center, zoom_start=zoom and the extra
    keywords, with one layer control added after everything the base
    constructor had attached: the base's children come first, unchanged, and
    the layer controls are one more than the base had. *)
Theorem foliummap_init_control_last :
  forall (W : folium.MapWidget) (center zoom : option value) (kw : kwargs)
         (self : folium.Map),
    foliummap.__init__ center zoom kw = Ok self ->
    exists base : folium.Map,
      folium.Map_new
        ([("location", match center with Some c => c
                       | None => VTuple [VInt 0; VInt 0] end);
          ("zoom_start", match zoom with Some z => z | None => VInt 3 end)]
           ++ kw) = Ok base /\
      folium.children self = folium.children base ++ [folium.LayerControl []] /\
      folium.options self = folium.options base /\
      length (folium.layer_controls self) =
        S (length (folium.layer_controls base)).
Proof.
  intros W center zoom kw self Hinit.
  unfold foliummap.__init__ in Hinit.
  destruct (call_kwargs _ kw) as [args|e] eqn:Hargs; [|discriminate Hinit].
  apply call_kwargs_ok_inv in Hargs. subst args.
  cbv beta iota delta [rbind] in Hinit.
  destruct (folium.Map_new _) as [base|e] eqn:Hbase; [|discriminate Hinit].
  injection Hinit as <-. exists base. split.
  - rewrite <- Hbase. destruct center, zoom; reflexivity.
  - split; [reflexivity|]. split; [reflexivity|].
    rewrite layer_controls_add_to, length_app. simpl. lia.
Qed.

Lemma foliummap_init_control_last_witness :
  exists base : folium.Map,
    @folium.Map_new Sample.folium_widget
      [("location", VTuple [VInt 0; VInt 0]); ("zoom_start", VInt 7)]
      = Ok base /\
    folium.children
      (folium.mkMap
         [("location", VTuple [VInt 0; VInt 0]); ("zoom_start", VInt 7)]
         [folium.TileLayer [("tiles", VStr "OpenStreetMap")];
          folium.LayerControl []]) =
      folium.children base ++ [folium.LayerControl []] /\
    folium.options
      (folium.mkMap
         [("location", VTuple [VInt 0; VInt 0]); ("zoom_start", VInt 7)]
         [folium.TileLayer [("tiles", VStr "OpenStreetMap")];
          folium.LayerControl []]) = folium.options base /\
    length
      (folium.layer_controls
         (folium.mkMap
            [("location", VTuple [VInt 0; VInt 0]); ("zoom_start", VInt 7)]
            [folium.TileLayer [("tiles", VStr "OpenStreetMap")];
             folium.LayerControl []])) =
      S (length (folium.layer_controls base)).
Proof.
  apply (foliummap_init_control_last Sample.folium_widget
           None (Some (VInt 7)) []).
  reflexivity.
Defined.

(** X20.  Extra keywords that carry [location] or [zoom_start], the names
    the wrapper itself passes on for center and zoom, make the constructor
    raise TypeError on one of them, whatever the base constructor would
    have done. *)
Theorem foliummap_init_keyword_clash :
  forall (W : folium.MapWidget) (center zoom : option value) (kw : kwargs),
    has_key "location" kw = true \/ has_key "zoom_start" kw = true ->
    exists k : string,
      foliummap.__init__ center zoom kw = Raise (TypeError k) /\
      In k ["location"; "zoom_start"].
Proof.
  intros W center zoom kw Hk.
  assert (Hclash : exists k, In k ["location"; "zoom_start"] /\
                             has_key k kw = true).
  { destruct Hk as [Hk | Hk];
      [exists "location" | exists "zoom_start"]; simpl; tauto. }
  destruct Hclash as (k0 & Hin & Hhas).
  destruct (call_kwargs_clash
              [("location", default_arg (VTuple [VInt 0; VInt 0]) center);
               ("zoom_start", default_arg (VInt 3) zoom)]
              kw k0 Hin Hhas) as (k & Hcall & Hk').
  exists k. split; [|exact Hk'].
  unfold foliummap.__init__. now rewrite Hcall.
Qed.

Lemma foliummap_init_keyword_clash_witness :
  exists k : string,
    foliummap.__init__ (W := Sample.folium_widget)
        None None [("location", VList [VInt 19; VInt 72])]
      = Raise (TypeError k) /\
    In k ["location"; "zoom_start"].
Proof.
  apply (foliummap_init_keyword_clash Sample.folium_widget None None
           [("location", VList [VInt 19; VInt 72])]).
  left. reflexivity.
Defined.

(** X21.  An exception of the folium base constructor leaves the wrapper's
    constructor unchanged: no map comes back and no control is made. *)
Theorem foliummap_init_base_failure_propagates :
  forall (W : folium.MapWidget) (center zoom : option value) (kw : kwargs)
         (e : exn),
    no_clash ["location"; "zoom_start"] kw ->
    folium.Map_new
      ([("location", match center with Some c => c
                     | None => VTuple [VInt 0; VInt 0] end);
        ("zoom_start", match zoom with Some z => z | None => VInt 3 end)]
         ++ kw) = Raise e ->
    foliummap.__init__ center zoom kw = Raise e.
Proof.
  intros W center zoom kw e Hno Hnew.
  unfold foliummap.__init__.
  rewrite (call_kwargs_no_clash
             [("location", default_arg (VTuple [VInt 0; VInt 0]) center);
              ("zoom_start", default_arg (VInt 3) zoom)] kw Hno).
  cbv beta iota delta [rbind].
  destruct center, zoom; cbv beta iota delta [default_arg];
    now rewrite Hnew.
Qed.

Lemma foliummap_init_base_failure_propagates_witness :
  foliummap.__init__ (W := World.folium_widget)
      (Some (VInt 19)) None [] = Raise (OtherError "ValueError").
Proof.
  apply (foliummap_init_base_failure_propagates World.folium_widget
           (Some (VInt 19)) None [] (OtherError "ValueError")).
  - intros k _. reflexivity.
  - reflexivity.
Defined.

(** ** Every helper: what a call that returns has changed *)




(** ** Every helper, whatever the outcome *)

(** X16.  Whether it returns or raises, a helper call made with a plain
    basemap name where it takes one never removes, replaces or reorders
    what is on the map: the old layers and the old controls are still
    there, in order, with at most one new object after them; the layout
    height and the scroll-wheel flag are untouched. *)
Theorem helper_call_keeps_objects :
  forall (S : Str) (V : Traitlets) (B : Basemaps) (G : Geopandas)
         (T : TileServer) (c : helper_call) (m m' : Map)
         (outcome : result unit),
    plain_lookup c m ->
    run_helper c m = (outcome, m') ->
    exists (new_layers : list Layer) (new_controls : list Control),
      layers m' = layers m ++ new_layers /\
      controls m' = controls m ++ new_controls /\
      (length new_layers + length new_controls <= 1)%nat /\
      layout_height m' = layout_height m /\
      scroll_wheel_zoom m' = scroll_wheel_zoom m.
Proof.
  intros S V B G T c m m' outcome Hplain Hrun.
  destruct c.
  1: { simpl in Hrun.
       destruct (add_basemap_plain B basemap m m' outcome Hplain Hrun)
         as [[_ [l ->]] | [_ ->]].
       - exists [l], []. rewrite app_nil_r.
         repeat split; try reflexivity; simpl; lia.
       - exists [], []. rewrite !app_nil_r.
         repeat split; try reflexivity; simpl; lia. }
  all: unfold_helpers Hrun; run_cases Hrun.
  all: injection Hrun as <- <-.
  all: first
         [ exists [], []; rewrite !app_nil_r;
           repeat split; try reflexivity; simpl; lia
         | eexists [_], []; rewrite !app_nil_r;
           repeat split; try reflexivity; simpl; lia
         | eexists [], [_]; rewrite !app_nil_r;
           repeat split; try reflexivity; simpl; lia ].
Qed.

Lemma helper_call_keeps_objects_witness :
  exists (new_layers : list Layer) (new_controls : list Control),
    layers
      (with_layer Sample.map0
         (mkLayer TileLayer
            [("url", VStr "nocenter.tif"); ("name", VStr "relief");
             ("colormap", VNone); ("opacity", VNone)])) =
      layers Sample.map0 ++ new_layers /\
    controls
      (with_layer Sample.map0
         (mkLayer TileLayer
            [("url", VStr "nocenter.tif"); ("name", VStr "relief");
             ("colormap", VNone); ("opacity", VNone)])) =
      controls Sample.map0 ++ new_controls /\
    (length new_layers + length new_controls <= 1)%nat /\
    layout_height
      (with_layer Sample.map0
         (mkLayer TileLayer
            [("url", VStr "nocenter.tif"); ("name", VStr "relief");
             ("colormap", VNone); ("opacity", VNone)])) =
      layout_height Sample.map0 /\
    scroll_wheel_zoom
      (with_layer Sample.map0
         (mkLayer TileLayer
            [("url", VStr "nocenter.tif"); ("name", VStr "relief");
             ("colormap", VNone); ("opacity", VNone)])) =
      scroll_wheel_zoom Sample.map0.
Proof.
  apply (helper_call_keeps_objects Sample.ascii_text Sample.traits
           Sample.basemaps Sample.geopandas World.tileserver
           (Call_add_raster (VStr "nocenter.tif") (Some (VStr "relief"))
              None None [])
           Sample.map0 _ (Raise (OtherError "ValueError"))).
  - exact I.
  - reflexivity.
Defined.

(** X17.  A helper in which attaching is the last statement (every helper
    but [add_vector] and [add_raster]), called with a plain basemap name
    where it takes one, is all-or-nothing: when it raises, the map is
    exactly as it was. *)
Theorem helper_failure_leaves_map :
  forall (S : Str) (V : Traitlets) (B : Basemaps) (G : Geopandas)
         (T : TileServer) (c : helper_call) (m m' : Map) (e : exn),
    attaches_last c = true ->
    plain_lookup c m ->
    run_helper c m = (Raise e, m') ->
    m' = m.
Proof.
  intros S V B G T c m m' e Hlast Hplain Hrun.
  destruct c; try discriminate Hlast.
  1: { simpl in Hrun.
       destruct (add_basemap_plain B basemap m m' (Raise e) Hplain Hrun)
         as [[He _] | [_ ->]]; [discriminate He | reflexivity]. }
  all: unfold_helpers Hrun; run_cases Hrun.
  all: now injection Hrun as _ <-.
Qed.

Lemma helper_failure_leaves_map_witness :
  snd (run_helper (S := Sample.ascii_text) (V := Sample.traits)
         (B := Sample.basemaps) (G := Sample.geopandas)
         (T := Sample.tileserver)
         (Call_add_google_map (Some "bogus")) Sample.map0) = Sample.map0.
Proof.
  apply (helper_failure_leaves_map Sample.ascii_text Sample.traits
           Sample.basemaps Sample.geopandas Sample.tileserver
           (Call_add_google_map (Some "bogus"))
           Sample.map0 _ (KeyError (VStr "BOGUS"))).
  - reflexivity.
  - exact I.
  - reflexivity.
Defined.

Lemma helper_appends_one (S : Str) (V : Traitlets) (B : Basemaps)
    (G : Geopandas) (T : TileServer) (c : helper_call) (m m' : Map) :
  plain_lookup c m ->
  run_helper c m = (Ok tt, m') ->
  (exists l, layers m' = layers m ++ [l] /\ controls m' = controls m) \/
  (exists k, controls m' = controls m ++ [k] /\ layers m' = layers m).
Proof.
  intros Hplain Hrun.
  destruct c.
  1: { simpl in Hrun.
       destruct (add_basemap_plain B basemap m m' (Ok tt) Hplain Hrun)
         as [[_ [l ->]] | [[e He] _]]; [|discriminate He].
       left. exists l. now split. }
  all: unfold_helpers Hrun; run_cases Hrun.
  all: injection Hrun as <-.
  all: first [ left; eexists; split; reflexivity
             | right; eexists; split; reflexivity ].
Qed.

(** X18.  A run of helper calls that all return, each made with a plain
    basemap name where it takes one, has appended one object per call, in
    the order of the calls, after the objects that were there: the layers
    and controls of the start are a prefix of those at the end, and the two
    lists have grown by as many objects as there were calls. *)
Theorem run_script_appends_each :
  forall (S : Str) (V : Traitlets) (B : Basemaps) (G : Geopandas)
         (T : TileServer) (cs : list helper_call) (m m' : Map),
    Forall (fun c => forall m0 : Map, plain_lookup c m0) cs ->
    run_script cs m = (Ok tt, m') ->
    exists (new_layers : list Layer) (new_controls : list Control),
      layers m' = layers m ++ new_layers /\
      controls m' = controls m ++ new_controls /\
      (length new_layers + length new_controls = length cs)%nat.
Proof.
  intros S V B G T cs.
  induction cs as [|c rest IH]; intros m m' Hplain Hrun.
  - injection Hrun as <-. exists [], []. now rewrite !app_nil_r.
  - inversion Hplain as [|c' rest' Hc Hrest]; subst.
    simpl in Hrun. unfold bind in Hrun.
    destruct (run_helper c m) as [[[]|e] m1] eqn:Hone; [|discriminate Hrun].
    apply (helper_appends_one S V B G T c m m1 (Hc m)) in Hone.
    destruct (IH m1 m' Hrest Hrun) as (ls & ctls & Hl & Hctl & Hlen).
    destruct Hone as [(l & Hl1 & Hc1) | (ctl & Hc1 & Hl1)].
    + exists (l :: ls), ctls. rewrite Hl, Hctl, Hl1, Hc1, <- app_assoc.
      simpl. repeat split. lia.
    + exists ls, (ctl :: ctls). rewrite Hl, Hctl, Hl1, Hc1, <- app_assoc.
      simpl. repeat split. lia.
Qed.

Lemma run_script_appends_each_witness :
  exists (new_layers : list Layer) (new_controls : list Control),
    layers
      (with_layer
         (with_control
            (with_layer Sample.map0
               (mkLayer TileLayer
                  [("url", VStr Sample.topo_url); ("name", VStr "Nowhere")]))
            (mkControl LayersControl []))
         (mkLayer TileLayer
            [("url", VStr "https://mt1.google.com/vt/lyrs=t&x={x}&y={y}&z={z}");
             ("name", VStr "Google Map")])) =
      layers Sample.map0 ++ new_layers /\
    controls
      (with_layer
         (with_control
            (with_layer Sample.map0
               (mkLayer TileLayer
                  [("url", VStr Sample.topo_url); ("name", VStr "Nowhere")]))
            (mkControl LayersControl []))
         (mkLayer TileLayer
            [("url", VStr "https://mt1.google.com/vt/lyrs=t&x={x}&y={y}&z={z}");
             ("name", VStr "Google Map")])) =
      controls Sample.map0 ++ new_controls /\
    (length new_layers + length new_controls = 3)%nat.
Proof.
  apply (run_script_appends_each Sample.ascii_text Sample.traits
           Sample.basemaps Sample.geopandas Sample.tileserver
           [Call_add_basemap (Some "Nowhere"); Call_add_layer_control;
            Call_add_google_map (Some "terrain")]
           Sample.map0).
  - repeat constructor.
  - reflexivity.
Defined.
